(** * POW service client: a shallow embedding of
      [src/services/pow_service_client.py] and the properties of
      [POWServiceClient.get_sentinel_token].

    The client is one coroutine that reads four configuration values,
    issues one GET request, inspects the decoded JSON envelope and
    writes diagnostics to a logger.  The embedding keeps the shape of the
    Python code: dynamically typed values, truthiness tests, exceptions
    raised by attribute look-ups and by [json.loads], the two inner
    [try/except] blocks and the outer one. *)

From Stdlib Require Import List NArith ZArith Bool Lia String Ascii.
Import ListNotations.

#[local] Set Warnings "-register-all".

(** ** Python values *)

(** A Python [str] is a sequence of Unicode code points; [len] counts
    code points, so a string is a list of numbers, not of bytes. *)
Definition pystr := list N.

(** [py "abc"] is the Python literal ["abc"] (ASCII text only). *)
Definition py (s : string) : pystr :=
  map N_of_ascii (list_ascii_of_string s).

(** [dq "{'a': 1}"] is the text [s] with every apostrophe read as a
    double quote: the way JSON documents are written down here. *)
Definition dq (s : string) : pystr :=
  map (fun c => if N.eqb c 39 then 34%N else c) (py s).

Fixpoint pystr_eqb (a b : pystr) : bool :=
  match a, b with
  | [], [] => true
  | x :: a', y :: b' => N.eqb x y && pystr_eqb a' b'
  | _, _ => false
  end.

(** A Python [float] as [json.loads] reads it: the decimal lexeme
    [(-1)^neg * digits * 10^exp10] before rounding, or one of the
    constants [NaN], [Infinity], [-Infinity]. *)
Inductive pyfloat :=
| FNaN
| FInf (neg : bool)
| FDec (neg : bool) (digits : N) (exp10 : Z).

(** The values [json.loads] produces, plus nothing else: [None], [bool],
    [int], [float], [str], [list] and [dict] with string keys.  A [dict]
    keeps insertion order ([keys()] and [items()] iterate in it). *)
Inductive pyval :=
| PNone
| PBool (b : bool)
| PInt (z : Z)
| PFloat (f : pyfloat)
| PStr (s : pystr)
| PList (l : list pyval)
| PDict (d : list (pystr * pyval)).

Definition pydict := list (pystr * pyval).

(** [d[k] = v] on an insertion-ordered dict: an existing key keeps its
    place and takes the new value, a new key goes last. *)
Fixpoint dict_set (d : pydict) (k : pystr) (v : pyval) : pydict :=
  match d with
  | [] => [(k, v)]
  | (k', v') :: d' =>
      if pystr_eqb k' k then (k', v) :: d' else (k', v') :: dict_set d' k v
  end.

Fixpoint dict_lookup (d : pydict) (k : pystr) : option pyval :=
  match d with
  | [] => None
  | (k', v) :: d' => if pystr_eqb k' k then Some v else dict_lookup d' k
  end.

(** [dict.get(k, default)]. *)
Definition dict_get (d : pydict) (k : pystr) (default : pyval) : pyval :=
  match dict_lookup d k with
  | Some v => v
  | None => default
  end.

(** A decimal [digits * 10^exp10] rounds to the float [0.0] when it is
    zero or at most [2^-1075], half of the smallest subnormal double
    (round-half-even sends the tie to zero). *)
Definition float_is_zero (digits : N) (exp10 : Z) : bool :=
  if N.eqb digits 0 then true
  else if Z.leb 0 exp10 then false
  else Z.leb (Z.of_N digits * 2 ^ 1075) (10 ^ (- exp10)).

(** Python truth value testing, [bool(v)]. *)
Definition truthy (v : pyval) : bool :=
  match v with
  | PNone => false
  | PBool b => b
  | PInt z => negb (Z.eqb z 0)
  | PFloat FNaN => true
  | PFloat (FInf _) => true
  | PFloat (FDec _ m e) => negb (float_is_zero m e)
  | PStr s => match s with [] => false | _ => true end
  | PList l => match l with [] => false | _ => true end
  | PDict d => match d with [] => false | _ => true end
  end.

(** The Python type of a value, as it shows in error messages. *)
Inductive pytype := TNone | TBool | TInt | TFloat | TStr | TList | TDict.

Definition type_of (v : pyval) : pytype :=
  match v with
  | PNone => TNone
  | PBool _ => TBool
  | PInt _ => TInt
  | PFloat _ => TFloat
  | PStr _ => TStr
  | PList _ => TList
  | PDict _ => TDict
  end.

(** ** [json.loads] on a [str]

    A model of CPython's decoder (the C scanner): recursive descent with
    the scanner's own look-ahead rules.  [Bad] stands for the
    [JSONDecodeError] it raises; [Starved] is the fuel of the
    recursion running out, which [loads] never meets
    ([loads_never_starved]).  The limits of an interpreter (the depth
    of its recursion, a cap on the digits of an integer) are not part
    of the model. *)
Module Json.

Inductive scan (A : Type) :=
| Got (a : A) (rest : pystr)
| Bad
| Starved.
Arguments Got {A} a rest.
Arguments Bad {A}.
Arguments Starved {A}.

Definition is_ws (c : N) : bool :=
  N.eqb c 32 || N.eqb c 9 || N.eqb c 10 || N.eqb c 13.

Fixpoint skip_ws (s : pystr) : pystr :=
  match s with
  | c :: r => if is_ws c then skip_ws r else s
  | [] => []
  end.

Definition is_digit (c : N) : bool := N.leb 48 c && N.leb c 57.

Definition hex_val (c : N) : option N :=
  if N.leb 48 c && N.leb c 57 then Some (c - 48)%N
  else if N.leb 97 c && N.leb c 102 then Some (c - 87)%N
  else if N.leb 65 c && N.leb c 70 then Some (c - 55)%N
  else None.

Definition hex4 (a b c d : N) : option N :=
  match hex_val a, hex_val b, hex_val c, hex_val d with
  | Some x, Some y, Some z, Some w => Some (((x * 16 + y) * 16 + z) * 16 + w)%N
  | _, _, _, _ => None
  end.

Definition is_high_surrogate (c : N) : bool := N.leb 55296 c && N.leb c 56319.
Definition is_low_surrogate (c : N) : bool := N.leb 56320 c && N.leb c 57343.

Definition join_surrogates (hi lo : N) : N :=
  (65536 + (N.lor (N.shiftl (N.land hi 1023) 10) (N.land lo 1023)))%N.

(** The one-character escapes after a backslash. *)
Definition simple_escape (c : N) : option N :=
  if N.eqb c 34 then Some 34%N          (* quote *)
  else if N.eqb c 92 then Some 92%N     (* backslash *)
  else if N.eqb c 47 then Some 47%N     (* slash *)
  else if N.eqb c 98 then Some 8%N      (* b: backspace *)
  else if N.eqb c 102 then Some 12%N    (* f: form feed *)
  else if N.eqb c 110 then Some 10%N    (* n: line feed *)
  else if N.eqb c 114 then Some 13%N    (* r: carriage return *)
  else if N.eqb c 116 then Some 9%N     (* t: tab *)
  else None.

(** [scanstring], strict mode, entered after the opening quote; [acc]
    holds the decoded characters in reverse.  A [\uXXXX] escape needs a
    character after its four digits; a high surrogate followed by a
    complete second escape (and one more character) is joined with it
    when that one is a low surrogate and stands alone otherwise. *)
Fixpoint scanstring (s : pystr) (acc : pystr) {struct s} : option (pystr * pystr) :=
  match s with
  | [] => None
  | c :: r =>
      if N.eqb c 34 then Some (rev acc, r)
      else if N.eqb c 92 then
        match r with
        | [] => None
        | e :: r1 =>
            if N.eqb e 117 then
              match r1 with
              | h1 :: h2 :: h3 :: h4 :: ((_ :: _) as r2) =>
                  match hex4 h1 h2 h3 h4 with
                  | None => None
                  | Some u =>
                      if is_high_surrogate u then
                        match r2 with
                        | b :: v :: g1 :: g2 :: g3 :: g4 :: ((_ :: _) as r3) =>
                            if N.eqb b 92 && N.eqb v 117 then
                              match hex4 g1 g2 g3 g4 with
                              | None => None
                              | Some u2 =>
                                  if is_low_surrogate u2
                                  then scanstring r3 (join_surrogates u u2 :: acc)
                                  else scanstring r2 (u :: acc)
                              end
                            else scanstring r2 (u :: acc)
                        | _ => scanstring r2 (u :: acc)
                        end
                      else scanstring r2 (u :: acc)
                  end
              | _ => None
              end
            else
              match simple_escape e with
              | Some x => scanstring r1 (x :: acc)
              | None => None
              end
        end
      else if N.leb c 31 then None
      else scanstring r (c :: acc)
  end.

(** A run of ASCII digits: its value continued from [acc], how many
    there were, and what follows. *)
Fixpoint digits (s : pystr) (acc : N) (n : nat) : N * nat * pystr :=
  match s with
  | c :: r => if is_digit c then digits r (acc * 10 + (c - 48))%N (S n) else (acc, n, s)
  | [] => (acc, n, [])
  end.

(** The optional exponent: [e] or [E], an optional sign and at least one
    digit; without a digit the scanner steps back before the [e]. *)
Definition exponent (s : pystr) : option (Z * pystr) :=
  match s with
  | e :: r =>
      if N.eqb e 101 || N.eqb e 69 then
        let '(neg, r1) :=
          match r with
          | sg :: r' => if N.eqb sg 45 then (true, r')
                        else if N.eqb sg 43 then (false, r') else (false, r)
          | [] => (false, r)
          end in
        match digits r1 0 0 with
        | (_, O, _) => None
        | (v, S _, r2) => Some (if neg then (- Z.of_N v)%Z else Z.of_N v, r2)
        end
      else None
  | [] => None
  end.

(** The number after its optional minus sign, from the integer part on. *)
Definition number_tail (neg : bool) (s : pystr) : scan pyval :=
  match s with
  | [] => Bad
  | c :: r =>
      if is_digit c then
        let '(ip, s1) :=
          if N.eqb c 48 then (0%N, r)
          else let '(v, _, r') := digits r (c - 48)%N 1 in (v, r') in
        let '(frac, s2) :=
          match s1 with
          | d :: (f :: _) as r1 =>
              if N.eqb d 46 && is_digit f then
                let '(v, k, r') := digits r1 ip 0 in (Some (v, k), r')
              else (None, s1)
          | _ => (None, s1)
          end in
        let '(ex, s3) :=
          match exponent s2 with
          | Some (e, r') => (Some e, r')
          | None => (None, s2)
          end in
        match frac, ex with
        | None, None => Got (PInt (if neg then (- Z.of_N ip)%Z else Z.of_N ip)) s3
        | Some (m, k), None => Got (PFloat (FDec neg m (- Z.of_nat k))) s3
        | None, Some e => Got (PFloat (FDec neg ip e)) s3
        | Some (m, k), Some e => Got (PFloat (FDec neg m (e - Z.of_nat k))) s3
        end
      else Bad
  end.

(** [s] starts with the characters of [lit]: what follows them. *)
Fixpoint after_prefix (lit s : pystr) : option pystr :=
  match lit, s with
  | [], _ => Some s
  | a :: lit', b :: s' => if N.eqb a b then after_prefix lit' s' else None
  | _ :: _, [] => None
  end.

(** Constants and numbers, tried in the scanner's order. *)
Definition scan_atom (s : pystr) : scan pyval :=
  match after_prefix (py "null") s with
  | Some r => Got PNone r
  | None =>
  match after_prefix (py "true") s with
  | Some r => Got (PBool true) r
  | None =>
  match after_prefix (py "false") s with
  | Some r => Got (PBool false) r
  | None =>
  match after_prefix (py "NaN") s with
  | Some r => Got (PFloat FNaN) r
  | None =>
  match after_prefix (py "Infinity") s with
  | Some r => Got (PFloat (FInf false)) r
  | None =>
  match after_prefix (py "-Infinity") s with
  | Some r => Got (PFloat (FInf true)) r
  | None =>
  match s with
  | c :: r => if N.eqb c 45 then number_tail true r else number_tail false s
  | [] => Bad
  end end end end end end end.

Fixpoint scan_once (fuel : nat) (s : pystr) {struct fuel} : scan pyval :=
  match fuel with
  | O => Starved
  | S fuel' =>
      match s with
      | [] => Bad
      | c :: r =>
          if N.eqb c 34 then
            match scanstring r [] with
            | Some (str, r') => Got (PStr str) r'
            | None => Bad
            end
          else if N.eqb c 123 then
            match skip_ws r with
            | [] => Bad
            | c1 :: r1 =>
                if N.eqb c1 125 then Got (PDict []) r1
                else members fuel' [] (c1 :: r1)
            end
          else if N.eqb c 91 then
            match skip_ws r with
            | [] => Bad
            | c1 :: r1 =>
                if N.eqb c1 93 then Got (PList []) r1
                else items fuel' [] (c1 :: r1)
            end
          else scan_atom s
      end
  end

(** The pairs of an object from a property name on, up to the closing
    brace; [acc] is the dict built so far. *)
with members (fuel : nat) (acc : pydict) (s : pystr) {struct fuel} : scan pyval :=
  match fuel with
  | O => Starved
  | S fuel' =>
      match s with
      | [] => Bad
      | c :: r =>
          if N.eqb c 34 then
            match scanstring r [] with
            | None => Bad
            | Some (key, r1) =>
                match skip_ws r1 with
                | [] => Bad
                | c2 :: r2 =>
                    if N.eqb c2 58 then
                      match scan_once fuel' (skip_ws r2) with
                      | Bad => Bad
                      | Starved => Starved
                      | Got v r3 =>
                          let acc' := dict_set acc key v in
                          match skip_ws r3 with
                          | [] => Bad
                          | c4 :: r4 =>
                              if N.eqb c4 125 then Got (PDict acc') r4
                              else if N.eqb c4 44 then members fuel' acc' (skip_ws r4)
                              else Bad
                          end
                      end
                    else Bad
                end
            end
          else Bad
      end
  end

(** The elements of an array from a value on, up to the closing bracket;
    [acc] holds the elements read so far in reverse. *)
with items (fuel : nat) (acc : list pyval) (s : pystr) {struct fuel} : scan pyval :=
  match fuel with
  | O => Starved
  | S fuel' =>
      match scan_once fuel' s with
      | Bad => Bad
      | Starved => Starved
      | Got v r1 =>
          match skip_ws r1 with
          | [] => Bad
          | c :: r2 =>
              if N.eqb c 93 then Got (PList (rev (v :: acc))) r2
              else if N.eqb c 44 then items fuel' (v :: acc) (skip_ws r2)
              else Bad
          end
      end
  end.

(** [JSONDecoder.decode]: leading white space, one value, trailing white
    space, and nothing more.  A value and the loop around it take two
    units of fuel for each character they open with, so twice the length
    of the text is enough. *)
Definition loads_fuel (fuel : nat) (s : pystr) : scan pyval :=
  match scan_once fuel (skip_ws s) with
  | Got v r => match skip_ws r with [] => Got v [] | _ :: _ => Bad end
  | Bad => Bad
  | Starved => Starved
  end.

Definition loads (s : pystr) : option pyval :=
  match loads_fuel (S (2 * List.length s)) s with
  | Got v _ => Some v
  | _ => None
  end.

End Json.

(** ** Exceptions, log records and the effects of a call *)

(** What can be raised during a call: the exceptions the interpreter
    raises inside the function; an instance of [Exception] raised by the
    transport (connection failure, timeout, ...), kept as the class name
    and the text [str(e)]; and what reaches the awaited dispatch without
    being an instance of [Exception] ([asyncio.CancelledError],
    [KeyboardInterrupt], [SystemExit]), kept as the class name. *)
Inductive exn :=
| JSONDecodeError (doc : pystr)
| LoadsTypeError (t : pytype)
| LenTypeError (t : pytype)
| AttributeError (t : pytype) (attr : pystr)
| TransportError (cls : pystr) (msg : pystr)
| Interrupt (cls : pystr).

(** [isinstance(e, Exception)]. *)
Definition is_exception (e : exn) : bool :=
  match e with
  | Interrupt _ => false
  | _ => true
  end.

(** A piece of a message: literal text, a value put through an f-string
    field [{v}], or the text [str(e)] of an exception. *)
Inductive frag :=
| Lit (s : pystr)
| Fmt (v : pyval)
| FmtExn (e : exn).

Definition msg := list frag.

(** The call [scraper.get(url, headers=, timeout=, proxies=)]. *)
Record http_call := {
  url : pystr;
  headers : list (pystr * pystr);
  timeout : Z;
  proxies : option (list (pystr * pystr))
}.

(** What the client reads of a response. *)
Record response := {
  status_code : Z;
  text : pystr
}.

(** What a call does to the outside, in order: records handed to
    [debug_logger], and the dispatch, where [_request_sync] builds a
    scraper and calls its [get] with the arguments [c]. *)
Inductive event :=
| LogInfo (message : msg)
| LogError (error_message : msg) (status_code : Z) (response_text : msg)
           (source : pystr)
| Dispatch (c : http_call).

(** A computation that emits events and ends with a value or a raised
    exception. *)
Definition M (A : Type) : Type := (list event * (exn + A))%type.

Definition ret {A} (a : A) : M A := ([], inr a).
Definition raise {A} (e : exn) : M A := ([], inl e).

Definition bind {A B} (m : M A) (f : A -> M B) : M B :=
  match m with
  | (l, inr a) => let '(l', r) := f a in (l ++ l', r)
  | (l, inl e) => (l, inl e)
  end.

(** [try: m except: h], the bare [except] that takes whatever is
    raised. *)
Definition try_except {A} (m : M A) (h : exn -> M A) : M A :=
  match m with
  | (l, inl e) => let '(l', r) := h e in (l ++ l', r)
  | (l, inr a) => (l, inr a)
  end.

(** [try: m except Exception as e: h e]: what is no instance of
    [Exception] goes through. *)
Definition try_except_Exception {A} (m : M A) (h : exn -> M A) : M A :=
  match m with
  | (l, inl e) =>
      if is_exception e then let '(l', r) := h e in (l ++ l', r)
      else (l, inl e)
  | (l, inr a) => (l, inr a)
  end.

Declare Scope py_scope.
Delimit Scope py_scope with py.
Notation "x <- m ;; k" := (bind m (fun x => k))
  (at level 61, m at next level, right associativity) : py_scope.
Notation "m ;; k" := (bind m (fun _ => k))
  (at level 61, right associativity) : py_scope.
Local Open Scope py_scope.

Fixpoint for_each {A} (l : list A) (f : A -> M unit) : M unit :=
  match l with
  | [] => ret tt
  | a :: l' => f a ;; for_each l' f
  end.

Definition log_info (message : msg) : M unit :=
  ([LogInfo message], inr tt).

Definition log_error (error_message : msg) (status_code : Z)
    (response_text : msg) (source : pystr) : M unit :=
  ([LogError error_message status_code response_text source], inr tt).

(** ** Operations on values that can raise *)

(** [v.get(k, default)]: only a dict has the method. *)
Definition py_get (v : pyval) (k : pystr) (default : pyval) : M pyval :=
  match v with
  | PDict d => ret (dict_get d k default)
  | _ => raise (AttributeError (type_of v) (py "get"))
  end.

(** [list(v.keys())]. *)
Definition py_keys (v : pyval) : M (list pystr) :=
  match v with
  | PDict d => ret (map fst d)
  | _ => raise (AttributeError (type_of v) (py "keys"))
  end.

(** [v.items()]. *)
Definition py_items (v : pyval) : M (list (pystr * pyval)) :=
  match v with
  | PDict d => ret d
  | _ => raise (AttributeError (type_of v) (py "items"))
  end.

(** [len(v)]. *)
Definition py_len (v : pyval) : M Z :=
  match v with
  | PStr s => ret (Z.of_nat (List.length s))
  | PList l => ret (Z.of_nat (List.length l))
  | PDict d => ret (Z.of_nat (List.length d))
  | _ => raise (LenTypeError (type_of v))
  end.

(** [json.loads(v)]: a [str] is decoded, any other value is a
    [TypeError]. *)
Definition json_loads (v : pyval) : M pyval :=
  match v with
  | PStr s =>
      match Json.loads s with
      | Some x => ret x
      | None => raise (JSONDecodeError s)
      end
  | _ => raise (LoadsTypeError (type_of v))
  end.

(** [response.json()]. *)
Definition response_json (r : response) : M pyval :=
  json_loads (PStr (text r)).

(** [s.rstrip('/')]. *)
Fixpoint drop_leading (c : N) (s : pystr) : pystr :=
  match s with
  | x :: s' => if N.eqb x c then drop_leading c s' else s
  | [] => []
  end.

Definition rstrip (s : pystr) (c : N) : pystr := rev (drop_leading c (rev s)).

(** ** Configuration *)

(** The four values read from [config] on every call; a string setting
    may be missing ([None]). *)
Record config := {
  pow_service_server_url : option pystr;
  pow_service_api_key : option pystr;
  pow_service_proxy_enabled : bool;
  pow_service_proxy_url : option pystr
}.

(** [bool(s)] for an optional string: [None] and the empty string are
    false. *)
Definition given (o : option pystr) : bool :=
  match o with
  | Some (_ :: _) => true
  | _ => false
  end.

Definition str_of (o : option pystr) : pystr :=
  match o with Some s => s | None => [] end.

(** ** The client *)

Definition source_name : pystr := py "POWServiceClient".

(** ["=" * 100]. *)
Definition separator : msg := [Lit (repeat 61%N 100)].

Section Client.

(** [scraper.get] as the outside world answers it: a response, or an
    exception. *)
Variable transport : http_call -> exn + response.

Definition scraper_get (c : http_call) : M response := ([Dispatch c], transport c).

(** [POWServiceClient._request_sync]. *)
Definition _request_sync (url : pystr) (headers : list (pystr * pystr))
    (timeout : Z) (proxy_url : option pystr) : M response :=
  let proxies :=
    if given proxy_url
    then Some [(py "http", str_of proxy_url); (py "https", str_of proxy_url)]
    else None in
  scraper_get {| url := url; headers := headers; timeout := timeout;
                 proxies := proxies |}.

(** Lines 95-101: [token_data] and [device_id] after the first inner
    [try].  An assignment made before the exception stays made. *)
Definition backfill (token device_id : pyval) : pyval * pyval :=
  if negb (truthy device_id) then
    match json_loads token with
    | (_, inr token_data) =>
        match py_get token_data (py "id") PNone with
        | (_, inr id) => (token_data, id)
        | (_, inl _) => (token_data, device_id)
        end
    | (_, inl _) => (PNone, device_id)
    end
  else (PNone, device_id).

(** Lines 122-125: the line logged for one item of the token payload. *)
Definition dump_item (kv : pystr * pyval) : M unit :=
  let '(key, value) := kv in
  match value with
  | PStr s =>
      if Z.ltb 100 (Z.of_nat (List.length s)) then
        log_info [Lit (py "[POW Service] Token["); Fmt (PStr key);
                  Lit (py "]: <string, length=");
                  Fmt (PInt (Z.of_nat (List.length s))); Lit (py ">")]
      else
        log_info [Lit (py "[POW Service] Token["); Fmt (PStr key);
                  Lit (py "]: "); Fmt value]
  | _ =>
      log_info [Lit (py "[POW Service] Token["); Fmt (PStr key);
                Lit (py "]: "); Fmt value]
  end.

(** Lines 119-125. *)
Definition dump (token_data : pyval) : M unit :=
  if truthy token_data then
    keys <- py_keys token_data ;;
    log_info [Lit (py "[POW Service] Token structure keys: ");
              Fmt (PList (map PStr keys))] ;;
    its <- py_items token_data ;;
    for_each its dump_item
  else ret tt.

(** Lines 94-129: the success path, entered with the four fields read
    from the envelope once the token has passed its test. *)
Definition report (token device_id user_agent cached : pyval)
    : M (option (pyval * pyval * pyval)) :=
  let '(token_data, device_id) := backfill token device_id in
  let cache_status := if truthy cached then py "cached" else py "fresh" in
  log_info separator ;;
  log_info [Lit (py "[POW Service] Token obtained successfully (");
            Fmt (PStr cache_status); Lit (py ")")] ;;
  n <- py_len token ;;
  log_info [Lit (py "[POW Service] Token length: "); Fmt (PInt n)] ;;
  log_info [Lit (py "[POW Service] Device ID: "); Fmt device_id] ;;
  log_info [Lit (py "[POW Service] User Agent: "); Fmt user_agent] ;;
  token_data <-
    (if negb (truthy token_data) then
       try_except (json_loads token)
         (fun _ =>
            log_info [Lit (py "[POW Service] Token is not valid JSON")] ;;
            ret PNone)
     else ret token_data) ;;
  dump token_data ;;
  log_info separator ;;
  ret (Some (token, device_id, user_agent)).

(** Lines 59-92, then the success path: what is done with a response. *)
Definition inspect (response : response) : M (option (pyval * pyval * pyval)) :=
  if negb (Z.eqb (status_code response) 200) then
    log_error [Lit (py "POW service request failed: ");
               Fmt (PInt (status_code response))]
              (status_code response) [Lit (text response)] source_name ;;
    ret None
  else
    data <- response_json response ;;
    success <- py_get data (py "success") PNone ;;
    if negb (truthy success) then
      log_error [Lit (py "POW service returned success=false")]
                (status_code response) [Lit (text response)] source_name ;;
      ret None
    else
      token <- py_get data (py "token") PNone ;;
      device_id <- py_get data (py "device_id") PNone ;;
      user_agent <- py_get data (py "user_agent") PNone ;;
      cached <- py_get data (py "cached") (PBool false) ;;
      if negb (truthy token) then
        log_error [Lit (py "POW service returned empty token")]
                  (status_code response) [Lit (text response)] source_name ;;
        ret None
      else report token device_id user_agent cached.

(** Lines 50-129: the body of the outer [try]. *)
Definition attempt (api_url : pystr) (headers : list (pystr * pystr))
    (proxy_url : option pystr) : M (option (pyval * pyval * pyval)) :=
  log_info [Lit (py "[POW Service] Requesting token from "); Fmt (PStr api_url)] ;;
  response <- _request_sync api_url headers 30 proxy_url ;;
  inspect response.

(** [POWServiceClient.get_sentinel_token]: [Some] triple, or [None]; the
    outer handler is [except Exception]. *)
Definition get_sentinel_token (cfg : config) : M (option (pyval * pyval * pyval)) :=
  let server_url := pow_service_server_url cfg in
  let api_key := pow_service_api_key cfg in
  let proxy_enabled := pow_service_proxy_enabled cfg in
  let proxy_url := if proxy_enabled then pow_service_proxy_url cfg else None in
  if negb (given server_url) || negb (given api_key) then
    log_error [Lit (py "POW service not configured: missing server_url or api_key")]
              0 [Lit (py "Configuration error")] source_name ;;
    ret None
  else
    let api_url := rstrip (str_of server_url) 47 ++ py "/api/pow/token" in
    let headers := [(py "Authorization", py "Bearer " ++ str_of api_key);
                    (py "Accept", py "application/json")] in
    try_except_Exception (attempt api_url headers proxy_url)
      (fun e =>
         log_error [Lit (py "POW service request exception: "); FmtExn e]
                   0 [FmtExn e] source_name ;;
         ret None).

End Client.

(** ** Vocabulary of the statements *)

Definition outcome {A} (m : M A) : exn + A := snd m.
Definition trace {A} (m : M A) : list event := fst m.

(** Both the base URL and the API key are set. *)
Definition configured (cfg : config) : bool :=
  given (pow_service_server_url cfg) && given (pow_service_api_key cfg).

Definition api_url_of (cfg : config) : pystr :=
  rstrip (str_of (pow_service_server_url cfg)) 47 ++ py "/api/pow/token".

Definition headers_of (cfg : config) : list (pystr * pystr) :=
  [(py "Authorization", py "Bearer " ++ str_of (pow_service_api_key cfg));
   (py "Accept", py "application/json")].

Definition proxy_url_of (cfg : config) : option pystr :=
  if pow_service_proxy_enabled cfg then pow_service_proxy_url cfg else None.

(** The request a configured client issues. *)
Definition request_of (cfg : config) : http_call :=
  {| url := api_url_of cfg;
     headers := headers_of cfg;
     timeout := 30;
     proxies :=
       if given (proxy_url_of cfg)
       then Some [(py "http", str_of (proxy_url_of cfg));
                  (py "https", str_of (proxy_url_of cfg))]
       else None |}.

(** The requests put on the wire during a run. *)
Fixpoint requests (l : list event) : list http_call :=
  match l with
  | Dispatch c :: l' => c :: requests l'
  | _ :: l' => requests l'
  | [] => []
  end.

Definition is_error (ev : event) : bool :=
  match ev with LogError _ _ _ _ => true | _ => false end.

(** The records of the client, by name. *)
Definition line_requesting (cfg : config) : event :=
  LogInfo [Lit (py "[POW Service] Requesting token from "); Fmt (PStr (api_url_of cfg))].

Definition line_not_configured : event :=
  LogError [Lit (py "POW service not configured: missing server_url or api_key")]
           0 [Lit (py "Configuration error")] source_name.

Definition line_exception (e : exn) : event :=
  LogError [Lit (py "POW service request exception: "); FmtExn e]
           0 [FmtExn e] source_name.

Definition line_status (r : response) : event :=
  LogError [Lit (py "POW service request failed: "); Fmt (PInt (status_code r))]
           (status_code r) [Lit (text r)] source_name.

Definition line_rejected (r : response) : event :=
  LogError [Lit (py "POW service returned success=false")]
           (status_code r) [Lit (text r)] source_name.

Definition line_empty_token (r : response) : event :=
  LogError [Lit (py "POW service returned empty token")]
           (status_code r) [Lit (text r)] source_name.

Definition line_obtained (cached : pyval) : event :=
  LogInfo [Lit (py "[POW Service] Token obtained successfully (");
           Fmt (PStr (if truthy cached then py "cached" else py "fresh"));
           Lit (py ")")].

Definition line_length (n : Z) : event :=
  LogInfo [Lit (py "[POW Service] Token length: "); Fmt (PInt n)].

Definition line_device (v : pyval) : event :=
  LogInfo [Lit (py "[POW Service] Device ID: "); Fmt v].

Definition line_agent (v : pyval) : event :=
  LogInfo [Lit (py "[POW Service] User Agent: "); Fmt v].

Definition line_not_json : event :=
  LogInfo [Lit (py "[POW Service] Token is not valid JSON")].

Definition line_keys (d : pydict) : event :=
  LogInfo [Lit (py "[POW Service] Token structure keys: ");
           Fmt (PList (map PStr (map fst d)))].

Definition line_redacted (key : pystr) (n : Z) : event :=
  LogInfo [Lit (py "[POW Service] Token["); Fmt (PStr key);
           Lit (py "]: <string, length="); Fmt (PInt n); Lit (py ">")].

Definition line_value (key : pystr) (v : pyval) : event :=
  LogInfo [Lit (py "[POW Service] Token["); Fmt (PStr key); Lit (py "]: "); Fmt v].

(** The line of the dump for one item. *)
Definition item_line (kv : pystr * pyval) : event :=
  match snd kv with
  | PStr s =>
      if Z.ltb 100 (Z.of_nat (List.length s))
      then line_redacted (fst kv) (Z.of_nat (List.length s))
      else line_value (fst kv) (snd kv)
  | v => line_value (fst kv) v
  end.

(** A transport that answers every request with the same response. *)
Definition answers (status : Z) (content : pystr) : http_call -> exn + response :=
  fun _ => inr {| status_code := status; text := content |}.

(** A transport that fails every request with the same exception. *)
Definition fails (e : exn) : http_call -> exn + response :=
  fun _ => inl e.

(** What the outer handler makes of the guarded block. *)
Definition guarded (m : M (option (pyval * pyval * pyval)))
    : M (option (pyval * pyval * pyval)) :=
  match m with
  | (l, inr x) => (l, inr x)
  | (l, inl e) => (l ++ [line_exception e], inr None)
  end.

(** The five lines that open the diagnostics of a string token. *)
Definition opening (t : pystr) (device_id user_agent cached : pyval) : list event :=
  [LogInfo separator; line_obtained cached;
   line_length (Z.of_nat (List.length t));
   line_device device_id; line_agent user_agent].

(** The device id after the backfill, given what the token decodes to. *)
Definition backfilled (device_id : pyval) (payload : option pyval) : pyval :=
  if truthy device_id then device_id
  else match payload with
       | Some (PDict td) => dict_get td (py "id") PNone
       | _ => device_id
       end.

(** A configuration with a base URL that ends in a slash, an API key and
    an enabled proxy, used where a statement is shown on a concrete run. *)
Definition sample_config : config :=
  {| pow_service_server_url := Some (py "https://pow.example/");
     pow_service_api_key := Some (py "k-1");
     pow_service_proxy_enabled := true;
     pow_service_proxy_url := Some (py "http://proxy:8080") |}.

Definition is_keys_line (ev : event) : bool :=
  match ev with
  | LogInfo [Lit s; Fmt _] =>
      pystr_eqb s (py "[POW Service] Token structure keys: ")
  | _ => false
  end.

Definition is_not_json_line (ev : event) : bool :=
  match ev with
  | LogInfo [Lit s] => pystr_eqb s (py "[POW Service] Token is not valid JSON")
  | _ => false
  end.

(** A 200 response whose body decodes to the object [env], with a true
    [success] and the non-empty string [t] as [token]. *)
Definition accepted (r : response) (env : pydict) (t : pystr) : Prop :=
  status_code r = 200%Z /\
  Json.loads (text r) = Some (PDict env) /\
  truthy (dict_get env (py "success") PNone) = true /\
  dict_lookup env (py "token") = Some (PStr t) /\
  t <> [].

(** A 200 response the client turns down: a body that is not JSON, a
    JSON value that is not an object, an object whose [success] is
    missing or tests false, or one whose [token] is missing or tests
    false. *)
Definition turned_down (r : response) : Prop :=
  match Json.loads (text r) with
  | None => True
  | Some (PDict env) =>
      truthy (dict_get env (py "success") PNone) = false \/
      truthy (dict_get env (py "token") PNone) = false
  | Some _ => True
  end.

(** A computation that puts nothing on the wire. *)
Definition quiet {A} (m : M A) : Prop := requests (trace m) = [].

(** Two envelopes that agree on every key but [cached]. *)
Definition differ_only_in_cached (d1 d2 : pydict) : Prop :=
  forall k, k <> py "cached" -> dict_lookup d1 k = dict_lookup d2 k.

(** The log records of a run, the dispatch left out. *)
Fixpoint logs (l : list event) : list event :=
  match l with
  | Dispatch _ :: l' => logs l'
  | ev :: l' => ev :: logs l'
  | [] => []
  end.

Definition is_info (ev : event) : bool :=
  match ev with LogInfo _ => true | _ => false end.

(** A computation that writes info records and nothing else. *)
Definition informing {A} (m : M A) : Prop :=
  Forall (fun ev => is_info ev = true) (trace m).

(** A computation that raises instances of [Exception] only. *)
Definition lawful {A} (m : M A) : Prop :=
  forall e, outcome m = inl e -> is_exception e = true.

(** ** Basic facts *)

Lemma pystr_eqb_eq (a b : pystr) : pystr_eqb a b = true <-> a = b.
Proof.
  revert b; induction a as [|x a IH]; intros [|y b]; simpl; split;
    try congruence; try reflexivity.
  - intros H. apply andb_true_iff in H as [Hx Hab].
    apply N.eqb_eq in Hx. apply IH in Hab. congruence.
  - intros H. injection H as -> ->. rewrite N.eqb_refl. simpl. now apply IH.
Qed.

Lemma given_false (o : option pystr) : given o = false <-> o = None \/ o = Some [].
Proof.
  destruct o as [[|c s]|]; simpl; split; intros H; auto; try discriminate.
  - destruct H; discriminate.
Qed.

Lemma given_true (o : option pystr) :
  given o = true <-> exists c s, o = Some (c :: s).
Proof.
  destruct o as [[|c s]|]; simpl; split; intros H; try discriminate; eauto;
    destruct H as (c' & s' & H); discriminate.
Qed.

Lemma dump_item_line (kv : pystr * pyval) : dump_item kv = ([item_line kv], inr tt).
Proof.
  destruct kv as [k v]. unfold dump_item, item_line. simpl.
  destruct v; try reflexivity.
  destruct (Z.ltb 100 (Z.of_nat (List.length s))); reflexivity.
Qed.

Lemma for_each_dump (d : pydict) : for_each d dump_item = (map item_line d, inr tt).
Proof.
  induction d as [|kv d IH]; simpl.
  - reflexivity.
  - rewrite dump_item_line. unfold bind. rewrite IH. reflexivity.
Qed.

(** The dump of a non-empty object: the key set, then a line per item. *)
Lemma dump_object (kv : pystr * pyval) (d : pydict) :
  dump (PDict (kv :: d)) = (line_keys (kv :: d) :: map item_line (kv :: d), inr tt).
Proof.
  unfold dump. cbn [truthy py_keys py_items bind ret log_info].
  rewrite for_each_dump. reflexivity.
Qed.

(** Nothing is dumped for a value that tests false. *)
Lemma dump_falsy (v : pyval) : truthy v = false -> dump v = ([], inr tt).
Proof. intros H. unfold dump. rewrite H. reflexivity. Qed.

(** A true value that is no dict has no [keys]. *)
Lemma dump_other (v : pyval) :
  truthy v = true -> type_of v <> TDict ->
  dump v = ([], inl (AttributeError (type_of v) (py "keys"))).
Proof.
  intros H Ht. unfold dump. rewrite H.
  destruct v; simpl in *; try reflexivity. congruence.
Qed.

(** A configured client runs the guarded block on the request of its
    configuration. *)
Lemma configured_run (transport : http_call -> exn + response) (cfg : config) :
  configured cfg = true ->
  get_sentinel_token transport cfg =
    try_except_Exception
      (bind (log_info [Lit (py "[POW Service] Requesting token from ");
                       Fmt (PStr (api_url_of cfg))])
            (fun _ => bind (scraper_get transport (request_of cfg)) inspect))
      (fun e => ([line_exception e], inr None)).
Proof.
  intros H. unfold configured in H. apply andb_true_iff in H as [Hu Hk].
  unfold get_sentinel_token. rewrite Hu, Hk. simpl negb. simpl orb. cbv iota.
  reflexivity.
Qed.

Lemma outcome_bind {A B} (m : M A) (f : A -> M B) :
  outcome (bind m f) =
    match outcome m with
    | inr a => outcome (f a)
    | inl e => inl e
    end.
Proof.
  unfold outcome, bind. destruct m as [l [e|a]]; simpl; [reflexivity|].
  destruct (f a); reflexivity.
Qed.

Lemma trace_bind {A B} (m : M A) (f : A -> M B) :
  trace (bind m f) =
    match outcome m with
    | inr a => trace m ++ trace (f a)
    | inl e => trace m
    end.
Proof.
  unfold outcome, trace, bind. destruct m as [l [e|a]]; simpl; [reflexivity|].
  destruct (f a); reflexivity.
Qed.

(** Everything the client does with a response raises instances of
    [Exception] only. *)
Lemma lawful_ret {A} (a : A) : lawful (ret a).
Proof. intros e H. discriminate. Qed.

Lemma lawful_raise {A} (e : exn) : is_exception e = true -> lawful (@raise A e).
Proof. intros He e' H. injection H as <-. exact He. Qed.

Lemma lawful_log_info (m : msg) : lawful (log_info m).
Proof. intros e H. discriminate. Qed.

Lemma lawful_log_error (m : msg) (z : Z) (t : msg) (s : pystr) :
  lawful (log_error m z t s).
Proof. intros e H. discriminate. Qed.

Lemma lawful_bind {A B} (m : M A) (f : A -> M B) :
  lawful m -> (forall a, lawful (f a)) -> lawful (bind m f).
Proof.
  unfold lawful. intros Hm Hf e. rewrite outcome_bind.
  destruct (outcome m) as [e'|a] eqn:Ho.
  - intros H. injection H as <-. apply Hm. reflexivity.
  - apply Hf.
Qed.

Lemma lawful_try_except {A} (m : M A) (h : exn -> M A) :
  (forall e, lawful (h e)) -> lawful (try_except m h).
Proof.
  unfold lawful, try_except, outcome. destruct m as [l [e|a]]; cbn [snd];
    intros Hh e'; [|discriminate].
  specialize (Hh e e'). destruct (h e) as [l' o]. exact Hh.
Qed.

Lemma lawful_if {A} (b : bool) (m1 m2 : M A) :
  lawful m1 -> lawful m2 -> lawful (if b then m1 else m2).
Proof. destruct b; auto. Qed.

Lemma lawful_py_get (v : pyval) (k : pystr) (d : pyval) : lawful (py_get v k d).
Proof. destruct v; intros e H; try discriminate; injection H as <-; reflexivity. Qed.

Lemma lawful_py_keys (v : pyval) : lawful (py_keys v).
Proof. destruct v; intros e H; try discriminate; injection H as <-; reflexivity. Qed.

Lemma lawful_py_items (v : pyval) : lawful (py_items v).
Proof. destruct v; intros e H; try discriminate; injection H as <-; reflexivity. Qed.

Lemma lawful_py_len (v : pyval) : lawful (py_len v).
Proof. destruct v; intros e H; try discriminate; injection H as <-; reflexivity. Qed.

Lemma lawful_json_loads (v : pyval) : lawful (json_loads v).
Proof.
  destruct v; intros e H; try (injection H as <-; reflexivity).
  unfold json_loads in H. destruct (Json.loads s); [discriminate|].
  injection H as <-. reflexivity.
Qed.

Lemma lawful_for_each {A} (l : list A) (f : A -> M unit) :
  (forall a, lawful (f a)) -> lawful (for_each l f).
Proof.
  intros Hf. induction l as [|a l IH]; [apply lawful_ret|].
  simpl. apply lawful_bind; auto.
Qed.

Lemma lawful_dump_item (kv : pystr * pyval) : lawful (dump_item kv).
Proof.
  destruct kv as [k v]. unfold dump_item. intros e.
  destruct v; try discriminate.
  destruct (Z.ltb 100 (Z.of_nat (List.length s))); discriminate.
Qed.

Create HintDb lawful.
#[local] Hint Resolve lawful_ret lawful_log_info lawful_log_error
  lawful_py_get lawful_py_keys lawful_py_items lawful_py_len
  lawful_json_loads lawful_dump_item : lawful.
#[local] Hint Extern 2 (lawful (bind _ _)) =>
  apply lawful_bind; [|intros] : lawful.
#[local] Hint Extern 2 (lawful (try_except _ _)) =>
  apply lawful_try_except; intros : lawful.
#[local] Hint Extern 2 (lawful (if _ then _ else _)) =>
  apply lawful_if : lawful.
#[local] Hint Extern 2 (lawful (for_each _ _)) =>
  apply lawful_for_each; intros : lawful.

Lemma lawful_dump (v : pyval) : lawful (dump v).
Proof. unfold dump. auto 10 with lawful. Qed.

Lemma lawful_report (token device_id user_agent cached : pyval) :
  lawful (report token device_id user_agent cached).
Proof.
  unfold report. destruct (backfill token device_id) as [token_data d].
  pose proof lawful_dump. auto 20 with lawful.
Qed.

Lemma lawful_inspect (r : response) : lawful (inspect r).
Proof.
  unfold inspect, response_json. pose proof lawful_report.
  auto 20 with lawful.
Qed.

(** The run of a configured call whose dispatch raises: an instance of
    [Exception] is logged and becomes [None], anything else goes to the
    caller as it is. *)
Lemma run_transport_fails (transport : http_call -> exn + response)
    (cfg : config) (e : exn) :
  configured cfg = true ->
  transport (request_of cfg) = inl e ->
  get_sentinel_token transport cfg =
    if is_exception e
    then ([line_requesting cfg; Dispatch (request_of cfg); line_exception e],
          inr None)
    else ([line_requesting cfg; Dispatch (request_of cfg)], inl e).
Proof.
  intros Hc Ht. rewrite (configured_run transport cfg Hc).
  unfold scraper_get. rewrite Ht. cbn [bind log_info app try_except_Exception].
  destruct (is_exception e); reflexivity.
Qed.

Lemma run_transport_raises (transport : http_call -> exn + response)
    (cfg : config) (e : exn) :
  configured cfg = true ->
  transport (request_of cfg) = inl e ->
  is_exception e = true ->
  get_sentinel_token transport cfg =
    ([line_requesting cfg; Dispatch (request_of cfg); line_exception e], inr None).
Proof.
  intros Hc Ht He. rewrite (run_transport_fails transport cfg e Hc Ht), He.
  reflexivity.
Qed.

Lemma run_response (transport : http_call -> exn + response)
    (cfg : config) (r : response) :
  configured cfg = true ->
  transport (request_of cfg) = inr r ->
  get_sentinel_token transport cfg =
    let '(l, o) := guarded (inspect r) in
    (line_requesting cfg :: Dispatch (request_of cfg) :: l, o).
Proof.
  intros Hc Ht. rewrite (configured_run transport cfg Hc).
  unfold scraper_get. rewrite Ht. unfold guarded.
  pose proof (lawful_inspect r) as Hl. unfold lawful, outcome in Hl.
  cbn [bind log_info app try_except_Exception].
  destruct (inspect r) as [l [e|x]]; [|reflexivity].
  cbn [try_except_Exception]. rewrite (Hl e eq_refl). reflexivity.
Qed.

Lemma inspect_status (r : response) :
  status_code r <> 200%Z -> inspect r = ([line_status r], inr None).
Proof.
  intros H. unfold inspect. apply Z.eqb_neq in H. rewrite H. reflexivity.
Qed.

Lemma inspect_undecodable (r : response) :
  status_code r = 200%Z -> Json.loads (text r) = None ->
  inspect r = ([], inl (JSONDecodeError (text r))).
Proof.
  intros Hs Hj. unfold inspect, response_json, json_loads.
  rewrite Hs, Hj. reflexivity.
Qed.

Lemma inspect_not_object (r : response) (v : pyval) :
  status_code r = 200%Z -> Json.loads (text r) = Some v -> type_of v <> TDict ->
  inspect r = ([], inl (AttributeError (type_of v) (py "get"))).
Proof.
  intros Hs Hj Ht. unfold inspect, response_json, json_loads.
  rewrite Hs, Hj. destruct v; simpl in *; try reflexivity. congruence.
Qed.

Lemma bind_ret {A B} (a : A) (f : A -> M B) : bind (ret a) f = f a.
Proof. unfold bind, ret. destruct (f a); reflexivity. Qed.

Lemma bind_raise {A B} (e : exn) (f : A -> M B) : bind (raise e) f = raise e.
Proof. reflexivity. Qed.

Lemma bind_log_info {B} (m : msg) (f : unit -> M B) :
  bind (log_info m) f = (LogInfo m :: trace (f tt), outcome (f tt)).
Proof. unfold bind, log_info, trace, outcome. destruct (f tt); reflexivity. Qed.

Lemma inspect_object (r : response) (env : pydict) :
  status_code r = 200%Z -> Json.loads (text r) = Some (PDict env) ->
  inspect r =
    if negb (truthy (dict_get env (py "success") PNone))
    then ([line_rejected r], inr None)
    else if negb (truthy (dict_get env (py "token") PNone))
    then ([line_empty_token r], inr None)
    else report (dict_get env (py "token") PNone)
                (dict_get env (py "device_id") PNone)
                (dict_get env (py "user_agent") PNone)
                (dict_get env (py "cached") (PBool false)).
Proof.
  intros Hs Hj. unfold inspect, response_json, json_loads.
  rewrite Hj, Hs. change (negb (200 =? 200)%Z) with false. cbv iota.
  rewrite bind_ret. cbn [py_get]. rewrite bind_ret.
  destruct (truthy (dict_get env (py "success") PNone)); cbn [negb];
    [|unfold line_rejected; rewrite Hs; reflexivity].
  rewrite !bind_ret.
  destruct (truthy (dict_get env (py "token") PNone)); cbn [negb];
    [reflexivity|unfold line_empty_token; rewrite Hs; reflexivity].
Qed.

Lemma backfill_str (t : pystr) (device_id : pyval) :
  backfill (PStr t) device_id =
    ((if truthy device_id then PNone
      else match Json.loads t with Some v => v | None => PNone end),
     backfilled device_id (Json.loads t)).
Proof.
  unfold backfill, backfilled, json_loads.
  destruct (truthy device_id); cbn [negb]; [reflexivity|].
  destruct (Json.loads t) as [v|]; [|reflexivity].
  destruct v; reflexivity.
Qed.

(** The second inner [try] ends with the decoded token whenever the token
    decodes, whatever the first one left in [token_data]. *)
Lemma reparse_decoded (t : pystr) (v : pyval) (b : bool) :
  Json.loads t = Some v ->
  (if negb (truthy (if b then PNone else v))
   then try_except (json_loads (PStr t))
          (fun _ => bind (log_info [Lit (py "[POW Service] Token is not valid JSON")])
                         (fun _ => ret PNone))
   else ret (if b then PNone else v)) = ret v.
Proof.
  intros Hj. unfold json_loads. rewrite Hj.
  destruct b; [reflexivity|]. destruct (truthy v); reflexivity.
Qed.

(** The success path on a string token, by what the token decodes to. *)
Lemma report_str (t : pystr) (device_id user_agent cached : pyval) :
  report (PStr t) device_id user_agent cached =
    let d := backfilled device_id (Json.loads t) in
    match Json.loads t with
    | None =>
        (opening t d user_agent cached ++ [line_not_json; LogInfo separator],
         inr (Some (PStr t, d, user_agent)))
    | Some v =>
        match dump v with
        | (l, inr _) =>
            (opening t d user_agent cached ++ l ++ [LogInfo separator],
             inr (Some (PStr t, d, user_agent)))
        | (l, inl e) => (opening t d user_agent cached ++ l, inl e)
        end
    end.
Proof.
  unfold report. rewrite backfill_str. cbv zeta.
  destruct (Json.loads t) as [v|] eqn:Hj.
  - rewrite (reparse_decoded t v (truthy device_id) Hj).
    cbn [bind log_info py_len ret app].
    destruct (dump v) as [l [e|[]]]; reflexivity.
  - assert (Hn : (if truthy device_id then PNone else PNone) = PNone)
      by (destruct (truthy device_id); reflexivity).
    rewrite Hn. unfold json_loads. rewrite Hj. reflexivity.
Qed.

(** ** Configuration check *)

(** C2: when the base URL or the API key is empty or absent, the call
    logs the configuration error, returns [None] at once and puts no
    request on the wire: the run consists of that one log record,
    whatever the transport would have answered. *)
Theorem missing_configuration_fails_before_any_request
    (transport : http_call -> exn + response) (cfg : config) :
  pow_service_server_url cfg = None \/ pow_service_server_url cfg = Some [] \/
  pow_service_api_key cfg = None \/ pow_service_api_key cfg = Some [] ->
  get_sentinel_token transport cfg =
    ([LogError [Lit (py "POW service not configured: missing server_url or api_key")]
               0 [Lit (py "Configuration error")] (py "POWServiceClient")],
     inr None) /\
  requests (trace (get_sentinel_token transport cfg)) = [].
Proof.
  intros H.
  assert (Hc : negb (given (pow_service_server_url cfg))
               || negb (given (pow_service_api_key cfg)) = true).
  { apply orb_true_iff.
    destruct H as [H|[H|[H|H]]]; rewrite H; simpl; auto. }
  unfold get_sentinel_token. rewrite Hc. split; reflexivity.
Qed.

Lemma missing_configuration_witness :
  get_sentinel_token (answers 200 (dq "{'success': true, 'token': 'abc123'}"))
    {| pow_service_server_url := Some (py "https://pow.example");
       pow_service_api_key := Some [];
       pow_service_proxy_enabled := false;
       pow_service_proxy_url := None |} =
    ([line_not_configured], inr None).
Proof.
  apply (missing_configuration_fails_before_any_request
           (answers 200 (dq "{'success': true, 'token': 'abc123'}"))
           {| pow_service_server_url := Some (py "https://pow.example");
              pow_service_api_key := Some [];
              pow_service_proxy_enabled := false;
              pow_service_proxy_url := None |}).
  right. right. right. reflexivity.
Defined.

(** ** Status validation *)

(** C5: a response whose status is not 200 makes the call return [None]
    after one error record that carries the status code (in the message
    and in [status_code]) and the raw body of the response. *)
Theorem non_200_status_is_absent_and_logged
    (transport : http_call -> exn + response) (cfg : config) (r : response) :
  configured cfg = true ->
  transport (request_of cfg) = inr r ->
  status_code r <> 200%Z ->
  get_sentinel_token transport cfg =
    ([line_requesting cfg; Dispatch (request_of cfg);
      LogError [Lit (py "POW service request failed: "); Fmt (PInt (status_code r))]
               (status_code r) [Lit (text r)] (py "POWServiceClient")],
     inr None).
Proof.
  intros Hc Ht Hs. rewrite (run_response transport cfg r Hc Ht).
  rewrite (inspect_status r Hs). reflexivity.
Qed.

Lemma non_200_status_witness :
  get_sentinel_token (answers 503 (py "Service Unavailable")) sample_config =
    ([line_requesting sample_config; Dispatch (request_of sample_config);
      LogError [Lit (py "POW service request failed: "); Fmt (PInt 503)]
               503 [Lit (py "Service Unavailable")] (py "POWServiceClient")],
     inr None).
Proof.
  apply (non_200_status_is_absent_and_logged
           (answers 503 (py "Service Unavailable")) sample_config
           {| status_code := 503; text := py "Service Unavailable" |}).
  - reflexivity.
  - reflexivity.
  - discriminate.
Defined.

(** ** The exception boundary *)

(** C3, where it fails as stated.  First, what the awaited dispatch
    raises need not be an instance of [Exception]: a cancellation goes
    through the handler to the caller and nothing is logged for it.
    Second, an exception raised during the diagnostics is not always
    turned into [None]: decoding the token ["abc123"] raises, one of the
    inner handlers takes it, and the call returns the triple without
    any error record. *)
Lemma cancellation_propagates_and_decode_failure_is_absorbed :
  let cancelled :=
    get_sentinel_token (fails (Interrupt (py "CancelledError"))) sample_config in
  let plain :=
    get_sentinel_token (answers 200 (dq "{'success': true, 'token': 'abc123'}"))
      sample_config in
  (outcome cancelled = inl (Interrupt (py "CancelledError")) /\
   filter is_error (trace cancelled) = []) /\
  (outcome (json_loads (PStr (py "abc123"))) = inl (JSONDecodeError (py "abc123")) /\
   outcome plain = inr (Some (PStr (py "abc123"), PNone, PNone)) /\
   filter is_error (trace plain) = []).
Proof. vm_compute. repeat split; reflexivity. Qed.

(** C3 as amended: an instance of [Exception] that leaves the guarded
    block (dispatch, validation, decoding of the body, diagnostics; the
    two inner handlers keep a failed decode of the token inside) is
    followed by one error record holding its text, with status 0, and
    the result [None]; so it is for an exception of the transport.  A
    call ends with a raised exception only when the dispatch raised
    something that is no instance of [Exception], which reaches the
    caller unlogged; every other call returns a triple or [None]. *)
Theorem exceptions_are_logged_and_become_absent
    (transport : http_call -> exn + response) (cfg : config) :
  (forall l e,
     configured cfg = true ->
     attempt transport (api_url_of cfg) (headers_of cfg) (proxy_url_of cfg)
       = (l, inl e) ->
     is_exception e = true ->
     get_sentinel_token transport cfg =
       (l ++ [LogError [Lit (py "POW service request exception: "); FmtExn e]
                       0 [FmtExn e] (py "POWServiceClient")],
        inr None)) /\
  (forall e,
     configured cfg = true ->
     transport (request_of cfg) = inl e ->
     is_exception e = true ->
     get_sentinel_token transport cfg =
       ([line_requesting cfg; Dispatch (request_of cfg);
         LogError [Lit (py "POW service request exception: "); FmtExn e]
                  0 [FmtExn e] (py "POWServiceClient")],
        inr None)) /\
  (forall e,
     outcome (get_sentinel_token transport cfg) = inl e ->
     configured cfg = true /\
     transport (request_of cfg) = inl e /\
     is_exception e = false /\
     trace (get_sentinel_token transport cfg)
       = [line_requesting cfg; Dispatch (request_of cfg)]).
Proof.
  split; [|split].
  - intros l e Hc Ha He. unfold configured in Hc.
    apply andb_true_iff in Hc as [Hu Hk].
    unfold get_sentinel_token. rewrite Hu, Hk. cbn [negb orb].
    unfold api_url_of, headers_of, proxy_url_of in Ha. rewrite Ha.
    cbn [try_except_Exception]. rewrite He. reflexivity.
  - intros e Hc Ht He. exact (run_transport_raises transport cfg e Hc Ht He).
  - intros e H.
    destruct (configured cfg) eqn:Hc.
    2:{ assert (Hn : negb (given (pow_service_server_url cfg))
                     || negb (given (pow_service_api_key cfg)) = true).
        { unfold configured in Hc. apply andb_false_iff in Hc as [Hc|Hc];
            rewrite Hc; simpl; auto using orb_true_r. }
        unfold get_sentinel_token in H. rewrite Hn in H. discriminate. }
    destruct (transport (request_of cfg)) as [e'|r] eqn:Ht.
    + rewrite (run_transport_fails transport cfg e' Hc Ht) in H |- *.
      destruct (is_exception e') eqn:He; [discriminate|].
      injection H as <-. repeat split; assumption.
    + rewrite (run_response transport cfg r Hc Ht) in H.
      destruct (inspect r) as [l [e'|x]]; discriminate.
Qed.

Lemma exceptions_witness :
  get_sentinel_token (fails (TransportError (py "ReadTimeout") (py "timed out")))
    sample_config =
    ([line_requesting sample_config; Dispatch (request_of sample_config);
      line_exception (TransportError (py "ReadTimeout") (py "timed out"))],
     inr None).
Proof.
  refine (proj1 (proj2 (exceptions_are_logged_and_become_absent
            (fails (TransportError (py "ReadTimeout") (py "timed out")))
            sample_config))
          (TransportError (py "ReadTimeout") (py "timed out")) _ _ _).
  - reflexivity.
  - reflexivity.
  - reflexivity.
Defined.

(** One run for each step that can raise inside the guarded block: the
    body is no JSON; the body is JSON but no object; the token is a
    number and has no [len]; the token decodes to a list, which has no
    [keys].  Each ends with the record of its exception and [None]. *)
Example exceptions_of_every_step :
  let ends_with content e :=
    let r := get_sentinel_token (answers 200 content) sample_config in
    outcome r = inr None /\ last (trace r) line_not_configured = line_exception e in
  ends_with (py "<html>") (JSONDecodeError (py "<html>")) /\
  ends_with (py "[1]") (AttributeError TList (py "get")) /\
  ends_with (dq "{'success': true, 'token': 5}") (LenTypeError TInt) /\
  ends_with (dq "{'success': true, 'token': '[1]'}") (AttributeError TList (py "keys")).
Proof. vm_compute. repeat split; reflexivity. Qed.

(** ** The envelope *)

(** The run on an accepted response is the request followed by the
    success path. *)
Lemma run_accepted (transport : http_call -> exn + response) (cfg : config)
    (r : response) (env : pydict) (t : pystr) :
  configured cfg = true ->
  transport (request_of cfg) = inr r ->
  accepted r env t ->
  get_sentinel_token transport cfg =
    let '(l, o) :=
      guarded (report (PStr t)
                 (dict_get env (py "device_id") PNone)
                 (dict_get env (py "user_agent") PNone)
                 (dict_get env (py "cached") (PBool false))) in
    (line_requesting cfg :: Dispatch (request_of cfg) :: l, o).
Proof.
  intros Hc Ht (Hs & Hj & Hok & Htok & Hne).
  rewrite (run_response transport cfg r Hc Ht).
  rewrite (inspect_object r env Hs Hj). rewrite Hok. cbn [negb].
  unfold dict_get at 1 2. rewrite Htok.
  destruct t as [|c t]; [congruence|]. cbn [truthy negb]. reflexivity.
Qed.

(** P6 of the specification: the envelope with all four fields. *)
Example full_envelope_returns_its_fields :
  outcome (get_sentinel_token
             (answers 200 (dq "{'success': true, 'token': 'abc123', 'device_id': 'd1', 'user_agent': 'UA/1.0'}"))
             sample_config)
  = inr (Some (PStr (py "abc123"), PStr (py "d1"), PStr (py "UA/1.0"))).
Proof. vm_compute. reflexivity. Qed.

(** C1, at the input where the code departs from it: a 200 response with
    [success] true and the non-empty token string ["123"], which is
    itself a JSON document but not an object.  The dump calls [keys()] on
    the decoded integer, the [AttributeError] reaches the outer handler,
    and the call returns [None] instead of the triple. *)
Theorem token_string_that_is_a_json_number_is_lost :
  let r := get_sentinel_token
             (answers 200 (dq "{'success': true, 'token': '123', 'device_id': 'd1', 'user_agent': 'UA/1.0'}"))
             sample_config in
  outcome r = inr None /\
  last (trace r) line_not_configured
    = line_exception (AttributeError TInt (py "keys")).
Proof. vm_compute. split; reflexivity. Qed.

(** The triple is returned exactly when the last step of the success
    path, the dump of the decoded token, raises nothing. *)
Lemma accepted_outcome (transport : http_call -> exn + response) (cfg : config)
    (r : response) (env : pydict) (t : pystr) :
  configured cfg = true ->
  transport (request_of cfg) = inr r ->
  accepted r env t ->
  outcome (get_sentinel_token transport cfg) =
    match Json.loads t with
    | Some v =>
        if truthy v && negb (match v with PDict _ => true | _ => false end)
        then inr None
        else inr (Some (PStr t,
                        backfilled (dict_get env (py "device_id") PNone) (Some v),
                        dict_get env (py "user_agent") PNone))
    | None =>
        inr (Some (PStr t,
                   backfilled (dict_get env (py "device_id") PNone) None,
                   dict_get env (py "user_agent") PNone))
    end.
Proof.
  intros Hc Ht Ha. rewrite (run_accepted transport cfg r env t Hc Ht Ha).
  rewrite report_str. cbv zeta.
  destruct (Json.loads t) as [v|]; [|reflexivity].
  destruct (truthy v) eqn:Hv.
  - destruct v as [| | | | |l|d]; cbn [andb negb];
      try (rewrite dump_other by (try exact Hv; simpl; congruence); reflexivity).
    destruct d as [|kv d]; [discriminate|]. rewrite dump_object. reflexivity.
  - rewrite (dump_falsy v Hv). reflexivity.
Qed.

(** ** Device id backfill *)

(** C7, at the input where the code departs from it: a successful
    envelope without [device_id] whose token string ["[1]"] decodes as
    JSON, to an array.  The backfill keeps the failed look-up of [id] to
    itself and leaves the device id [None], as the claim says; but the
    dump then calls [keys()] on the array, the [AttributeError] reaches
    the outer handler, an error record is written and the call returns
    [None] instead of the triple. *)
Theorem array_token_without_device_id_is_lost :
  let r := get_sentinel_token
             (answers 200 (dq "{'success': true, 'token': '[1]', 'user_agent': 'UA/1.0'}"))
             sample_config in
  Json.loads (py "[1]") = Some (PList [PInt 1]) /\
  backfill (PStr (py "[1]")) PNone = (PList [PInt 1], PNone) /\
  outcome r = inr None /\
  last (trace r) line_not_configured
    = line_exception (AttributeError TList (py "keys")).
Proof. vm_compute. repeat split; reflexivity. Qed.

(** What the code keeps of the backfill: on a successful envelope
    without [device_id], a token that decodes to a JSON object gives its
    [id] field as the returned device id; a token that does not decode
    leaves the device id absent ([None]), the call still returns the
    triple and no error record is written during the run. *)
Theorem device_id_is_backfilled_from_the_token
    (transport : http_call -> exn + response) (cfg : config)
    (r : response) (env : pydict) (t : pystr) :
  configured cfg = true ->
  transport (request_of cfg) = inr r ->
  accepted r env t ->
  dict_lookup env (py "device_id") = None ->
  (forall td,
     Json.loads t = Some (PDict td) ->
     outcome (get_sentinel_token transport cfg) =
       inr (Some (PStr t, dict_get td (py "id") PNone,
                  dict_get env (py "user_agent") PNone))) /\
  (Json.loads t = None ->
     outcome (get_sentinel_token transport cfg) =
       inr (Some (PStr t, PNone, dict_get env (py "user_agent") PNone)) /\
     existsb is_error (trace (get_sentinel_token transport cfg)) = false).
Proof.
  intros Hc Ht Ha Hd. split.
  - intros td Hj. rewrite (accepted_outcome transport cfg r env t Hc Ht Ha).
    rewrite Hj. unfold dict_get at 1 2. rewrite Hd. cbn [andb negb].
    rewrite andb_false_r. reflexivity.
  - intros Hj. split.
    + rewrite (accepted_outcome transport cfg r env t Hc Ht Ha).
      rewrite Hj. unfold dict_get at 1. rewrite Hd. reflexivity.
    + rewrite (run_accepted transport cfg r env t Hc Ht Ha).
      rewrite report_str, Hj. reflexivity.
Qed.

(** P5 of the specification, through the theorem. *)
Lemma device_id_backfill_witness :
  outcome (get_sentinel_token
             (answers 200 (dq "{'success': true, 'token': '{\'id\':\'dev-42\'}'}"))
             sample_config)
  = inr (Some (PStr (dq "{'id':'dev-42'}"), PStr (py "dev-42"), PNone)).
Proof.
  refine (proj1 (device_id_is_backfilled_from_the_token
            (answers 200 (dq "{'success': true, 'token': '{\'id\':\'dev-42\'}'}"))
            sample_config
            {| status_code := 200;
               text := dq "{'success': true, 'token': '{\'id\':\'dev-42\'}'}" |}
            [(py "success", PBool true); (py "token", PStr (dq "{'id':'dev-42'}"))]
            (dq "{'id':'dev-42'}") _ _ _ _)
          [(py "id", PStr (py "dev-42"))] _).
  - reflexivity.
  - reflexivity.
  - repeat split; try (vm_compute; reflexivity). discriminate.
  - reflexivity.
  - vm_compute. reflexivity.
Defined.

(** ** Diagnostics of the token payload *)

Lemma item_line_not_marker (kv : pystr * pyval) :
  is_not_json_line (item_line kv) = false /\ is_keys_line (item_line kv) = false.
Proof.
  destruct kv as [k v]. unfold item_line. cbn [fst snd].
  destruct v; try (split; reflexivity).
  destruct (Z.ltb 100 (Z.of_nat (List.length s))); split; reflexivity.
Qed.

Lemma item_lines_no_marker (d : pydict) :
  existsb is_not_json_line (map item_line d) = false /\
  existsb is_keys_line (map item_line d) = false.
Proof.
  induction d as [|kv d [IH1 IH2]]; [split; reflexivity|].
  cbn [map existsb]. destruct (item_line_not_marker kv) as [-> ->].
  rewrite IH1, IH2. split; reflexivity.
Qed.

(** C4, where it fails as stated: the token ["{}"] decodes as JSON, the
    call succeeds, and the run holds neither a dump (no key-set line)
    nor the line saying that the token is not JSON. *)
Lemma empty_object_token_logs_neither :
  let r := get_sentinel_token
             (answers 200 (dq "{'success': true, 'token': '{}', 'device_id': 'd1'}"))
             sample_config in
  Json.loads (py "{}") = Some (PDict []) /\
  outcome r = inr (Some (PStr (py "{}"), PStr (py "d1"), PNone)) /\
  existsb is_keys_line (trace r) = false /\
  existsb is_not_json_line (trace r) = false.
Proof. vm_compute. repeat split; reflexivity. Qed.

(** C4 as amended: on the success path, a token that decodes to a
    non-empty JSON object is followed by the structural dump, the key
    set and then one line per item in order, and by no not-JSON line; a
    token that does not decode is followed by the not-JSON line and by
    no dump. *)
Theorem diagnostics_dump_object_or_say_not_json
    (transport : http_call -> exn + response) (cfg : config)
    (r : response) (env : pydict) (t : pystr) :
  configured cfg = true ->
  transport (request_of cfg) = inr r ->
  accepted r env t ->
  let run := get_sentinel_token transport cfg in
  let head payload :=
    line_requesting cfg :: Dispatch (request_of cfg) ::
    opening t (backfilled (dict_get env (py "device_id") PNone) payload)
      (dict_get env (py "user_agent") PNone)
      (dict_get env (py "cached") (PBool false)) in
  (forall kv td,
     Json.loads t = Some (PDict (kv :: td)) ->
     trace run =
       head (Some (PDict (kv :: td))) ++
       line_keys (kv :: td) :: map item_line (kv :: td) ++ [LogInfo separator] /\
     existsb is_not_json_line (trace run) = false) /\
  (Json.loads t = None ->
     trace run = head None ++ [line_not_json; LogInfo separator] /\
     existsb is_keys_line (trace run) = false).
Proof.
  intros Hc Ht Ha run head. subst run head. cbv beta.
  rewrite (run_accepted transport cfg r env t Hc Ht Ha).
  rewrite report_str. cbv zeta. split.
  - intros kv td Hj. rewrite Hj, dump_object. cbn [guarded trace fst app].
    split; [reflexivity|].
    cbn [existsb opening app].
    rewrite existsb_app. cbn [existsb].
    destruct (item_lines_no_marker (kv :: td)) as [-> _]. reflexivity.
  - intros Hj. rewrite Hj. cbn [guarded trace fst app]. split; reflexivity.
Qed.

Lemma diagnostics_witness :
  existsb is_keys_line
    (trace (get_sentinel_token
              (answers 200 (dq "{'success': true, 'token': 'abc123'}"))
              sample_config)) = false.
Proof.
  refine (proj2 (proj2 (diagnostics_dump_object_or_say_not_json
            (answers 200 (dq "{'success': true, 'token': 'abc123'}"))
            sample_config
            {| status_code := 200;
               text := dq "{'success': true, 'token': 'abc123'}" |}
            [(py "success", PBool true); (py "token", PStr (py "abc123"))]
            (py "abc123") _ _ _) _)).
  - reflexivity.
  - reflexivity.
  - repeat split; try (vm_compute; reflexivity). discriminate.
  - vm_compute. reflexivity.
Defined.

(** ** Rejected envelopes *)

(** C6, where it fails as stated: the envelope carries [success] as the
    string ["false"], not the boolean [true]; the string tests true, and
    the call returns the triple. *)
Lemma success_that_is_not_true_is_accepted :
  let doc := dq "{'success': 'false', 'token': 'abc123'}" in
  (exists env, Json.loads doc = Some (PDict env) /\
               dict_lookup env (py "success") <> Some (PBool true)) /\
  outcome (get_sentinel_token (answers 200 doc) sample_config)
    = inr (Some (PStr (py "abc123"), PNone, PNone)).
Proof.
  split.
  - eexists. split; [vm_compute; reflexivity|]. vm_compute. discriminate.
  - vm_compute. reflexivity.
Qed.

(** C6 as amended: a 200 response whose body does not decode as JSON or
    is no object, whose [success] is missing or false under Python's
    truth test, or whose [token] is missing or empty, makes the call
    write one error record and return [None]; so do the bodies
    [{"success": false}] and [{"success": true, "token": ""}]. *)
Theorem turned_down_envelopes_are_absent_and_logged
    (transport : http_call -> exn + response) (cfg : config) (r : response) :
  configured cfg = true ->
  transport (request_of cfg) = inr r ->
  status_code r = 200%Z ->
  turned_down r ->
  (outcome (get_sentinel_token transport cfg) = inr None /\
   exists ev,
     trace (get_sentinel_token transport cfg)
       = [line_requesting cfg; Dispatch (request_of cfg); ev] /\
     is_error ev = true) /\
  get_sentinel_token (answers 200 (dq "{'success': false}")) cfg =
    ([line_requesting cfg; Dispatch (request_of cfg);
      LogError [Lit (py "POW service returned success=false")]
               200 [Lit (dq "{'success': false}")] (py "POWServiceClient")],
     inr None) /\
  get_sentinel_token (answers 200 (dq "{'success': true, 'token': ''}")) cfg =
    ([line_requesting cfg; Dispatch (request_of cfg);
      LogError [Lit (py "POW service returned empty token")]
               200 [Lit (dq "{'success': true, 'token': ''}")] (py "POWServiceClient")],
     inr None).
Proof.
  intros Hc Ht Hs Hd. split; [|split].
  - rewrite (run_response transport cfg r Hc Ht). unfold turned_down in Hd.
    destruct (Json.loads (text r)) as [v|] eqn:Hj.
    + destruct v as [| | | | | |env];
        try (rewrite (inspect_not_object r _ Hs Hj) by (simpl; congruence);
             split; [reflexivity|eexists; split; reflexivity]).
      rewrite (inspect_object r env Hs Hj).
      destruct (truthy (dict_get env (py "success") PNone)) eqn:Hok; cbn [negb].
      * destruct Hd as [Hd|Hd]; [discriminate|]. rewrite Hd. cbn [negb].
        split; [reflexivity|eexists; split; reflexivity].
      * split; [reflexivity|eexists; split; reflexivity].
    + rewrite (inspect_undecodable r Hs Hj).
      split; [reflexivity|eexists; split; reflexivity].
  - rewrite (run_response (answers 200 (dq "{'success': false}")) cfg
               {| status_code := 200; text := dq "{'success': false}" |} Hc eq_refl).
    reflexivity.
  - rewrite (run_response (answers 200 (dq "{'success': true, 'token': ''}")) cfg
               {| status_code := 200; text := dq "{'success': true, 'token': ''}" |}
               Hc eq_refl).
    reflexivity.
Qed.

Lemma turned_down_witness :
  outcome (get_sentinel_token (answers 200 (py "<html>Bad Gateway</html>"))
             sample_config) = inr None.
Proof.
  refine (proj1 (proj1 (turned_down_envelopes_are_absent_and_logged
            (answers 200 (py "<html>Bad Gateway</html>")) sample_config
            {| status_code := 200; text := py "<html>Bad Gateway</html>" |}
            _ _ _ _))).
  - reflexivity.
  - reflexivity.
  - reflexivity.
  - vm_compute. exact I.
Defined.

(** ** Proxy *)

Lemma requests_app (l1 l2 : list event) :
  requests (l1 ++ l2) = requests l1 ++ requests l2.
Proof.
  induction l1 as [|ev l1 IH]; [reflexivity|].
  destruct ev; simpl; rewrite IH; reflexivity.
Qed.

Lemma quiet_ret {A} (a : A) : quiet (ret a).
Proof. reflexivity. Qed.

Lemma quiet_raise {A} (e : exn) : quiet (@raise A e).
Proof. reflexivity. Qed.

Lemma quiet_log_info (m : msg) : quiet (log_info m).
Proof. reflexivity. Qed.

Lemma quiet_log_error (m : msg) (z : Z) (t : msg) (s : pystr) :
  quiet (log_error m z t s).
Proof. reflexivity. Qed.

Lemma quiet_bind {A B} (m : M A) (f : A -> M B) :
  quiet m -> (forall a, quiet (f a)) -> quiet (bind m f).
Proof.
  unfold quiet. intros Hm Hf. rewrite trace_bind.
  destruct (outcome m) as [e|a]; [exact Hm|].
  rewrite requests_app, Hm, (Hf a). reflexivity.
Qed.

Lemma quiet_try_except {A} (m : M A) (h : exn -> M A) :
  quiet m -> (forall e, quiet (h e)) -> quiet (try_except m h).
Proof.
  unfold quiet, try_except, trace. destruct m as [l [e|a]]; cbn [fst]; intros Hm Hh.
  - specialize (Hh e). destruct (h e) as [l' o]. cbn [fst] in *.
    rewrite requests_app, Hm, Hh. reflexivity.
  - exact Hm.
Qed.

Lemma quiet_if {A} (b : bool) (m1 m2 : M A) :
  quiet m1 -> quiet m2 -> quiet (if b then m1 else m2).
Proof. destruct b; auto. Qed.

Lemma quiet_py_get (v : pyval) (k : pystr) (d : pyval) : quiet (py_get v k d).
Proof. destruct v; reflexivity. Qed.

Lemma quiet_py_keys (v : pyval) : quiet (py_keys v).
Proof. destruct v; reflexivity. Qed.

Lemma quiet_py_items (v : pyval) : quiet (py_items v).
Proof. destruct v; reflexivity. Qed.

Lemma quiet_py_len (v : pyval) : quiet (py_len v).
Proof. destruct v; reflexivity. Qed.

Lemma quiet_json_loads (v : pyval) : quiet (json_loads v).
Proof. destruct v; try reflexivity. simpl. destruct (Json.loads s); reflexivity. Qed.

Lemma quiet_for_each {A} (l : list A) (f : A -> M unit) :
  (forall a, quiet (f a)) -> quiet (for_each l f).
Proof.
  intros Hf. induction l as [|a l IH]; [reflexivity|].
  simpl. apply quiet_bind; auto.
Qed.

Lemma quiet_dump_item (kv : pystr * pyval) : quiet (dump_item kv).
Proof.
  destruct kv as [k v]. unfold dump_item.
  destruct v; try reflexivity.
  destruct (Z.ltb 100 (Z.of_nat (List.length s))); reflexivity.
Qed.

Create HintDb quiet.
#[local] Hint Resolve quiet_ret quiet_raise quiet_log_info quiet_log_error
  quiet_py_get quiet_py_keys quiet_py_items quiet_py_len quiet_json_loads
  quiet_dump_item : quiet.
#[local] Hint Extern 2 (quiet (bind _ _)) => apply quiet_bind; [|intros] : quiet.
#[local] Hint Extern 2 (quiet (try_except _ _)) =>
  apply quiet_try_except; [|intros] : quiet.
#[local] Hint Extern 2 (quiet (if _ then _ else _)) => apply quiet_if : quiet.
#[local] Hint Extern 2 (quiet (for_each _ _)) =>
  apply quiet_for_each; intros : quiet.

Lemma quiet_dump (v : pyval) : quiet (dump v).
Proof. unfold dump. auto 10 with quiet. Qed.

Lemma quiet_report (token device_id user_agent cached : pyval) :
  quiet (report token device_id user_agent cached).
Proof.
  unfold report. destruct (backfill token device_id) as [token_data d].
  pose proof quiet_dump. auto 20 with quiet.
Qed.

(** Everything after the dispatch only writes log records. *)
Lemma quiet_inspect (r : response) : quiet (inspect r).
Proof.
  unfold inspect, response_json. pose proof quiet_report. auto 20 with quiet.
Qed.

Lemma requests_guarded (m : M (option (pyval * pyval * pyval))) :
  requests (trace (guarded m)) = requests (trace m).
Proof.
  destruct m as [l [e|x]]; [|reflexivity].
  unfold guarded, trace. cbn [fst]. rewrite requests_app. simpl.
  apply app_nil_r.
Qed.

(** A configured client issues exactly the request of its configuration. *)
Lemma configured_requests (transport : http_call -> exn + response)
    (cfg : config) :
  configured cfg = true ->
  requests (trace (get_sentinel_token transport cfg)) = [request_of cfg].
Proof.
  intros Hc. destruct (transport (request_of cfg)) as [e|r] eqn:Ht.
  - rewrite (run_transport_fails transport cfg e Hc Ht).
    destruct (is_exception e); reflexivity.
  - rewrite (run_response transport cfg r Hc Ht).
    pose proof (requests_guarded (inspect r)) as Hg.
    rewrite (quiet_inspect r) in Hg.
    destruct (guarded (inspect r)) as [l o]. unfold trace in *. cbn [fst] in *.
    cbn [requests]. unfold line_requesting. cbn [requests]. rewrite Hg.
    reflexivity.
Qed.

(** C8, where it fails as stated: the flag is set and the configured
    proxy URL is the empty string; the one request of the run goes out
    with no proxy at all. *)
Lemma enabled_proxy_without_url_goes_direct :
  let cfg := {| pow_service_server_url := Some (py "https://pow.example");
                pow_service_api_key := Some (py "k-1");
                pow_service_proxy_enabled := true;
                pow_service_proxy_url := Some [] |} in
  pow_service_proxy_enabled cfg = true /\
  map proxies (requests (trace (get_sentinel_token (answers 204 []) cfg)))
    = [None].
Proof. vm_compute. split; reflexivity. Qed.

(** C8 as amended: a configured client issues exactly one request; with
    the flag set and a non-empty proxy URL [u], that request names [u]
    as the proxy of both the [http] and the [https] scheme; with the
    flag unset it names no proxy, whatever proxy URL is configured; so
    it does with the flag set and the URL empty or missing. *)
Theorem proxy_follows_flag_and_url
    (transport : http_call -> exn + response) (cfg : config) :
  configured cfg = true ->
  exists c,
    requests (trace (get_sentinel_token transport cfg)) = [c] /\
    (forall u,
       pow_service_proxy_enabled cfg = true ->
       pow_service_proxy_url cfg = Some u -> u <> [] ->
       proxies c = Some [(py "http", u); (py "https", u)]) /\
    (pow_service_proxy_enabled cfg = false -> proxies c = None) /\
    (pow_service_proxy_enabled cfg = true ->
     given (pow_service_proxy_url cfg) = false -> proxies c = None).
Proof.
  intros Hc. exists (request_of cfg). split; [|split; [|split]].
  - exact (configured_requests transport cfg Hc).
  - intros u He Hu Hne. unfold request_of, proxy_url_of. cbn [proxies].
    rewrite He, Hu. destruct u as [|x u]; [congruence|]. reflexivity.
  - intros He. unfold request_of, proxy_url_of. cbn [proxies]. rewrite He.
    reflexivity.
  - intros He Hs. unfold request_of, proxy_url_of. cbn [proxies].
    rewrite He, Hs. reflexivity.
Qed.

(** P8 of the specification, through the theorem. *)
Lemma proxy_witness :
  exists c,
    requests (trace (get_sentinel_token (answers 200 (py "{}")) sample_config)) = [c] /\
    proxies c = Some [(py "http", py "http://proxy:8080");
                      (py "https", py "http://proxy:8080")].
Proof.
  destruct (proxy_follows_flag_and_url (answers 200 (py "{}")) sample_config eq_refl)
    as (c & Hreq & Hon & _).
  exists c. split; [exact Hreq|].
  apply Hon; [reflexivity|reflexivity|discriminate].
Defined.

(** ** Redaction of long values *)




(** ** The cached flag *)

Lemma dict_get_agree (d1 d2 : pydict) (k : pystr) (default : pyval) :
  differ_only_in_cached d1 d2 -> k <> py "cached" ->
  dict_get d1 k default = dict_get d2 k default.
Proof. intros H Hk. unfold dict_get. rewrite (H k Hk). reflexivity. Qed.

(** The flag shows in the second line of the success path and nowhere
    else in it. *)
Lemma report_cached (token device_id user_agent : pyval) :
  exists l o, forall cached,
    report token device_id user_agent cached =
      (LogInfo separator :: line_obtained cached :: l, o).
Proof.
  exists (tl (tl (trace (report token device_id user_agent PNone)))),
         (outcome (report token device_id user_agent PNone)).
  intros cached. unfold report.
  destruct (backfill token device_id) as [token_data d].
  cbn [bind log_info app]. unfold line_obtained, trace, outcome.
  destruct (bind (py_len token) _) as [l0 o0]. reflexivity.
Qed.

(** C10: two runs with the same configuration whose responses have the
    same status and envelopes that differ only in [cached] (any value,
    or none) end with the same result; when that result is a triple the
    two traces differ in the cached-or-fresh line alone. *)
Theorem cached_flag_never_changes_the_result
    (transport1 transport2 : http_call -> exn + response) (cfg : config)
    (r1 r2 : response) (env1 env2 : pydict) :
  transport1 (request_of cfg) = inr r1 ->
  transport2 (request_of cfg) = inr r2 ->
  status_code r1 = status_code r2 ->
  Json.loads (text r1) = Some (PDict env1) ->
  Json.loads (text r2) = Some (PDict env2) ->
  differ_only_in_cached env1 env2 ->
  outcome (get_sentinel_token transport1 cfg)
    = outcome (get_sentinel_token transport2 cfg) /\
  (forall x,
     outcome (get_sentinel_token transport1 cfg) = inr (Some x) ->
     exists pre post,
       trace (get_sentinel_token transport1 cfg) =
         pre ++ line_obtained (dict_get env1 (py "cached") (PBool false)) :: post /\
       trace (get_sentinel_token transport2 cfg) =
         pre ++ line_obtained (dict_get env2 (py "cached") (PBool false)) :: post).
Proof.
  intros Ht1 Ht2 Hs Hj1 Hj2 Hd.
  destruct (configured cfg) eqn:Hc.
  2:{ assert (Hn : negb (given (pow_service_server_url cfg))
                   || negb (given (pow_service_api_key cfg)) = true).
      { unfold configured in Hc. apply andb_false_iff in Hc as [Hc|Hc];
          rewrite Hc; simpl; auto using orb_true_r. }
      unfold get_sentinel_token. rewrite Hn. split; [reflexivity|].
      intros x Hx. discriminate. }
  rewrite (run_response transport1 cfg r1 Hc Ht1).
  rewrite (run_response transport2 cfg r2 Hc Ht2).
  destruct (Z.eq_dec (status_code r1) 200) as [H200|Hne].
  - rewrite (inspect_object r1 env1 H200 Hj1).
    rewrite (inspect_object r2 env2 (eq_trans (eq_sym Hs) H200) Hj2).
    rewrite <- (dict_get_agree env1 env2 (py "success") PNone Hd)
      by (intro H; vm_compute in H; discriminate).
    rewrite <- (dict_get_agree env1 env2 (py "token") PNone Hd)
      by (intro H; vm_compute in H; discriminate).
    rewrite <- (dict_get_agree env1 env2 (py "device_id") PNone Hd)
      by (intro H; vm_compute in H; discriminate).
    rewrite <- (dict_get_agree env1 env2 (py "user_agent") PNone Hd)
      by (intro H; vm_compute in H; discriminate).
    destruct (truthy (dict_get env1 (py "success") PNone)); cbn [negb].
    2:{ split; [reflexivity|]. intros x Hx. discriminate. }
    destruct (truthy (dict_get env1 (py "token") PNone)); cbn [negb].
    2:{ split; [reflexivity|]. intros x Hx. discriminate. }
    destruct (report_cached (dict_get env1 (py "token") PNone)
                (dict_get env1 (py "device_id") PNone)
                (dict_get env1 (py "user_agent") PNone)) as (l & o & Hrep).
    rewrite !Hrep. destruct o as [e|x0]; cbn [guarded outcome trace fst snd].
    + split; [reflexivity|]. intros x Hx. discriminate.
    + split; [reflexivity|]. intros x _.
      exists [line_requesting cfg; Dispatch (request_of cfg); LogInfo separator], l.
      split; reflexivity.
  - rewrite (inspect_status r1 Hne).
    rewrite (inspect_status r2) by congruence.
    split; [reflexivity|]. intros x Hx. discriminate.
Qed.

Lemma cached_flag_witness :
  outcome (get_sentinel_token
             (answers 200 (dq "{'success': true, 'token': 'abc123', 'cached': true}"))
             sample_config)
  = outcome (get_sentinel_token
               (answers 200 (dq "{'success': true, 'token': 'abc123'}"))
               sample_config).
Proof.
  refine (proj1 (cached_flag_never_changes_the_result
            (answers 200 (dq "{'success': true, 'token': 'abc123', 'cached': true}"))
            (answers 200 (dq "{'success': true, 'token': 'abc123'}"))
            sample_config
            {| status_code := 200;
               text := dq "{'success': true, 'token': 'abc123', 'cached': true}" |}
            {| status_code := 200;
               text := dq "{'success': true, 'token': 'abc123'}" |}
            [(py "success", PBool true); (py "token", PStr (py "abc123"));
             (py "cached", PBool true)]
            [(py "success", PBool true); (py "token", PStr (py "abc123"))]
            _ _ _ _ _ _)).
  - reflexivity.
  - reflexivity.
  - reflexivity.
  - vm_compute. reflexivity.
  - vm_compute. reflexivity.
  - intros k Hk. cbn [dict_lookup].
    destruct (pystr_eqb (py "success") k); [reflexivity|].
    destruct (pystr_eqb (py "token") k); [reflexivity|].
    destruct (pystr_eqb (py "cached") k) eqn:He; [|reflexivity].
    apply pystr_eqb_eq in He. congruence.
Defined.

(** ** Further properties of the client *)

(** *** The success path writes info records only *)

Lemma informing_ret {A} (a : A) : informing (ret a).
Proof. constructor. Qed.

Lemma informing_raise {A} (e : exn) : informing (@raise A e).
Proof. constructor. Qed.

Lemma informing_log_info (m : msg) : informing (log_info m).
Proof. repeat constructor. Qed.

Lemma informing_bind {A B} (m : M A) (f : A -> M B) :
  informing m -> (forall a, informing (f a)) -> informing (bind m f).
Proof.
  unfold informing. intros Hm Hf. rewrite trace_bind.
  destruct (outcome m) as [e|a]; [exact Hm|].
  apply Forall_app. split; [exact Hm|apply Hf].
Qed.

Lemma informing_try_except {A} (m : M A) (h : exn -> M A) :
  informing m -> (forall e, informing (h e)) -> informing (try_except m h).
Proof.
  unfold informing, try_except, trace. destruct m as [l [e|a]]; cbn [fst];
    intros Hm Hh; [|exact Hm].
  specialize (Hh e). destruct (h e) as [l' o]. cbn [fst] in *.
  apply Forall_app. split; assumption.
Qed.

Lemma informing_if {A} (b : bool) (m1 m2 : M A) :
  informing m1 -> informing m2 -> informing (if b then m1 else m2).
Proof. destruct b; auto. Qed.

Lemma informing_py_keys (v : pyval) : informing (py_keys v).
Proof. destruct v; constructor. Qed.

Lemma informing_py_items (v : pyval) : informing (py_items v).
Proof. destruct v; constructor. Qed.

Lemma informing_py_len (v : pyval) : informing (py_len v).
Proof. destruct v; constructor. Qed.

Lemma informing_json_loads (v : pyval) : informing (json_loads v).
Proof.
  destruct v; try constructor. unfold json_loads.
  destruct (Json.loads s); constructor.
Qed.

Lemma informing_for_each {A} (l : list A) (f : A -> M unit) :
  (forall a, informing (f a)) -> informing (for_each l f).
Proof.
  intros Hf. induction l as [|a l IH]; [constructor|].
  simpl. apply informing_bind; auto.
Qed.

Lemma informing_dump_item (kv : pystr * pyval) : informing (dump_item kv).
Proof.
  destruct kv as [k v]. unfold dump_item.
  destruct v; try (repeat constructor).
  destruct (Z.ltb 100 (Z.of_nat (List.length s))); repeat constructor.
Qed.

Create HintDb informing.
#[local] Hint Resolve informing_ret informing_raise informing_log_info
  informing_py_keys informing_py_items informing_py_len informing_json_loads
  informing_dump_item : informing.
#[local] Hint Extern 2 (informing (bind _ _)) =>
  apply informing_bind; [|intros] : informing.
#[local] Hint Extern 2 (informing (try_except _ _)) =>
  apply informing_try_except; [|intros] : informing.
#[local] Hint Extern 2 (informing (if _ then _ else _)) =>
  apply informing_if : informing.
#[local] Hint Extern 2 (informing (for_each _ _)) =>
  apply informing_for_each; intros : informing.

Lemma informing_dump (v : pyval) : informing (dump v).
Proof. unfold dump. auto 10 with informing. Qed.

Lemma informing_report (token device_id user_agent cached : pyval) :
  informing (report token device_id user_agent cached).
Proof.
  unfold report. destruct (backfill token device_id) as [token_data d].
  pose proof informing_dump. auto 20 with informing.
Qed.

Lemma informing_no_error (l : list event) :
  Forall (fun ev => is_info ev = true) l -> filter is_error l = [].
Proof.
  induction 1 as [|ev l Hev _ IH]; [reflexivity|].
  destruct ev; try discriminate. simpl. exact IH.
Qed.

(** The device id the first inner [try] leaves: the envelope's when it
    tests true, and then nothing of the token is looked at. *)
Lemma backfill_keeps_true_device_id (token device_id : pyval) :
  truthy device_id = true -> backfill token device_id = (PNone, device_id).
Proof. intros H. unfold backfill. rewrite H. reflexivity. Qed.

(** The only value the success path returns is the triple of the token,
    the device id after the backfill and the user agent. *)
Lemma report_returns (token device_id user_agent cached : pyval)
    (x : option (pyval * pyval * pyval)) :
  outcome (report token device_id user_agent cached) = inr x ->
  x = Some (token, snd (backfill token device_id), user_agent).
Proof.
  unfold report. destruct (backfill token device_id) as [token_data d].
  cbn [snd]. cbn [bind log_info app].
  destruct (py_len token) as [l1 [e1|n]]; cbn [bind log_info app outcome snd];
    [discriminate|].
  match goal with
  | |- context [if negb (truthy token_data) then ?a else ?b] =>
      destruct (if negb (truthy token_data) then a else b) as [l2 [e2|td2]]
  end; cbn [bind log_info app outcome snd]; [discriminate|].
  destruct (dump td2) as [l3 [e3|[]]]; cbn [bind log_info app outcome snd ret];
    [discriminate|].
  intros H. injection H as <-. reflexivity.
Qed.

(** What [inspect] leaves behind: with [None], exactly one record, an
    error; otherwise no error record at all. *)
Lemma inspect_errors (r : response) :
  match inspect r with
  | (l, inr None) => exists ev, l = [ev] /\ is_error ev = true
  | (l, _) => filter is_error l = []
  end.
Proof.
  unfold inspect.
  destruct (negb (Z.eqb (status_code r) 200)); [eexists; split; reflexivity|].
  unfold response_json, json_loads.
  destruct (Json.loads (text r)) as [data|]; [|reflexivity].
  rewrite bind_ret.
  destruct data; try reflexivity.
  cbn [py_get]. rewrite bind_ret.
  destruct (negb (truthy (dict_get d (py "success") PNone)));
    [eexists; split; reflexivity|].
  rewrite !bind_ret.
  destruct (negb (truthy (dict_get d (py "token") PNone)));
    [eexists; split; reflexivity|].
  pose proof (informing_report (dict_get d (py "token") PNone)
                (dict_get d (py "device_id") PNone)
                (dict_get d (py "user_agent") PNone)
                (dict_get d (py "cached") (PBool false))) as Hi.
  pose proof (report_returns (dict_get d (py "token") PNone)
                (dict_get d (py "device_id") PNone)
                (dict_get d (py "user_agent") PNone)
                (dict_get d (py "cached") (PBool false))) as Hr.
  unfold informing, trace, outcome in *.
  destruct (report _ _ _ _) as [l [e|[x|]]]; cbn [fst snd] in *;
    try (apply informing_no_error; exact Hi).
  specialize (Hr None eq_refl). discriminate.
Qed.

(** X5: a call that returns [None] has written exactly one error
    record, and it is the last thing the call did; a call that returns a
    triple has written no error record; a call that ends with a raised
    exception, which only something of the dispatch that is no instance
    of [Exception] brings about, has written no error record either. *)
Theorem one_error_record_exactly_when_absent
    (transport : http_call -> exn + response) (cfg : config) :
  match outcome (get_sentinel_token transport cfg) with
  | inr None =>
      exists l ev,
        trace (get_sentinel_token transport cfg) = l ++ [ev] /\
        is_error ev = true /\ filter is_error l = []
  | inr (Some _) => filter is_error (trace (get_sentinel_token transport cfg)) = []
  | inl e =>
      is_exception e = false /\
      transport (request_of cfg) = inl e /\
      filter is_error (trace (get_sentinel_token transport cfg)) = []
  end.
Proof.
  destruct (configured cfg) eqn:Hc.
  2:{ assert (Hn : negb (given (pow_service_server_url cfg))
                   || negb (given (pow_service_api_key cfg)) = true).
      { unfold configured in Hc. apply andb_false_iff in Hc as [Hc|Hc];
          rewrite Hc; simpl; auto using orb_true_r. }
      unfold get_sentinel_token. rewrite Hn. cbn.
      exists [], line_not_configured. repeat split. }
  destruct (transport (request_of cfg)) as [e|r] eqn:Ht.
  - rewrite (run_transport_fails transport cfg e Hc Ht).
    destruct (is_exception e) eqn:He; cbn [outcome snd trace fst].
    + exists [line_requesting cfg; Dispatch (request_of cfg)], (line_exception e).
      repeat split.
    + split; [exact He|]. split; reflexivity.
  - rewrite (run_response transport cfg r Hc Ht).
    pose proof (inspect_errors r) as Hi.
    destruct (inspect r) as [l [e|[x|]]]; cbn [guarded outcome snd trace fst].
    + exists (line_requesting cfg :: Dispatch (request_of cfg) :: l), (line_exception e).
      repeat split. cbn [filter is_error line_requesting]. exact Hi.
    + cbn [filter is_error line_requesting]. exact Hi.
    + destruct Hi as (ev & -> & Hev).
      exists [line_requesting cfg; Dispatch (request_of cfg)], ev.
      repeat split. exact Hev.
Qed.

(** X4: a triple is returned only for a 200 response whose body decodes
    to an object with a true [success] and a true [token]; the token and
    the user agent of the triple are the envelope's, unchanged, and so is
    the device id whenever the envelope's tests true. *)
Theorem a_triple_comes_only_from_an_accepted_envelope
    (transport : http_call -> exn + response) (cfg : config)
    (tok dev ua : pyval) :
  outcome (get_sentinel_token transport cfg) = inr (Some (tok, dev, ua)) ->
  configured cfg = true /\
  exists r env,
    transport (request_of cfg) = inr r /\
    status_code r = 200%Z /\
    Json.loads (text r) = Some (PDict env) /\
    truthy (dict_get env (py "success") PNone) = true /\
    tok = dict_get env (py "token") PNone /\
    truthy tok = true /\
    ua = dict_get env (py "user_agent") PNone /\
    (truthy (dict_get env (py "device_id") PNone) = true ->
     dev = dict_get env (py "device_id") PNone).
Proof.
  intros H.
  destruct (configured cfg) eqn:Hc.
  2:{ assert (Hn : negb (given (pow_service_server_url cfg))
                   || negb (given (pow_service_api_key cfg)) = true).
      { unfold configured in Hc. apply andb_false_iff in Hc as [Hc|Hc];
          rewrite Hc; simpl; auto using orb_true_r. }
      unfold get_sentinel_token in H. rewrite Hn in H. discriminate. }
  split; [reflexivity|].
  destruct (transport (request_of cfg)) as [e|r] eqn:Ht.
  { rewrite (run_transport_fails transport cfg e Hc Ht) in H.
    destruct (is_exception e); discriminate. }
  rewrite (run_response transport cfg r Hc Ht) in H.
  exists r.
  destruct (Z.eq_dec (status_code r) 200) as [Hs|Hs].
  2:{ rewrite (inspect_status r Hs) in H. discriminate. }
  destruct (Json.loads (text r)) as [data|] eqn:Hj.
  2:{ rewrite (inspect_undecodable r Hs Hj) in H. discriminate. }
  destruct data as [| | | | | |env];
    try (rewrite (inspect_not_object r _ Hs Hj) in H by (simpl; congruence);
         discriminate).
  exists env. rewrite (inspect_object r env Hs Hj) in H.
  destruct (truthy (dict_get env (py "success") PNone)) eqn:Hok;
    cbn [negb] in H; [|discriminate].
  destruct (truthy (dict_get env (py "token") PNone)) eqn:Htok;
    cbn [negb] in H; [|discriminate].
  pose proof (report_returns (dict_get env (py "token") PNone)
                (dict_get env (py "device_id") PNone)
                (dict_get env (py "user_agent") PNone)
                (dict_get env (py "cached") (PBool false))) as Hr.
  unfold outcome in *.
  destruct (report _ _ _ _) as [l [e|x]]; cbn [guarded snd] in *; [discriminate|].
  injection H as ->. specialize (Hr _ eq_refl). injection Hr as -> -> ->.
  repeat split; try reflexivity; try assumption.
  intros Hd. rewrite (backfill_keeps_true_device_id _ _ Hd). reflexivity.
Qed.

Lemma triple_origin_witness :
  configured sample_config = true /\
  exists r env,
    answers 200 (dq "{'success': true, 'token': 'abc123', 'device_id': 'd1'}")
      (request_of sample_config) = inr r /\
    status_code r = 200%Z /\
    Json.loads (text r) = Some (PDict env) /\
    truthy (dict_get env (py "success") PNone) = true /\
    PStr (py "abc123") = dict_get env (py "token") PNone /\
    truthy (PStr (py "abc123")) = true /\
    PNone = dict_get env (py "user_agent") PNone /\
    (truthy (dict_get env (py "device_id") PNone) = true ->
     PStr (py "d1") = dict_get env (py "device_id") PNone).
Proof.
  apply (a_triple_comes_only_from_an_accepted_envelope
           (answers 200 (dq "{'success': true, 'token': 'abc123', 'device_id': 'd1'}"))
           sample_config (PStr (py "abc123")) (PStr (py "d1")) PNone).
  vm_compute. reflexivity.
Defined.

(** *** The endpoint *)

Lemma drop_leading_split (c : N) (s : pystr) :
  exists k, s = repeat c k ++ drop_leading c s /\ hd 0%N (drop_leading c s) <> c
            \/ s = repeat c k /\ drop_leading c s = [].
Proof.
  induction s as [|x s (k & IH)].
  - exists O. right. split; reflexivity.
  - simpl. destruct (N.eqb x c) eqn:Hx.
    + apply N.eqb_eq in Hx. subst x. exists (S k).
      destruct IH as [[Hs Hh]|[Hs Hd]].
      * left. split; [simpl; congruence|exact Hh].
      * right. split; [simpl; congruence|exact Hd].
    + apply N.eqb_neq in Hx. exists O. left. split; [reflexivity|exact Hx].
Qed.

Lemma drop_leading_repeat (c : N) (k : nat) (s : pystr) :
  drop_leading c (repeat c k ++ s) = drop_leading c s.
Proof.
  induction k as [|k IH]; [reflexivity|].
  simpl. rewrite N.eqb_refl. exact IH.
Qed.

(** [rstrip] takes a run of [c] off the end and leaves a string that
    does not end in [c]. *)
Lemma rstrip_split (s : pystr) (c : N) :
  exists k, s = rstrip s c ++ repeat c k /\
            (rstrip s c = [] \/ last (rstrip s c) c <> c).
Proof.
  unfold rstrip. destruct (drop_leading_split c (rev s)) as (k & [[Hs Hh]|[Hs Hd]]).
  - exists k. split.
    + rewrite <- (rev_involutive s) at 1. rewrite Hs at 1.
      rewrite rev_app_distr, rev_repeat. reflexivity.
    + destruct (drop_leading c (rev s)) as [|x d]; [left; reflexivity|].
      right. simpl. rewrite last_last. exact Hh.
  - exists k. split.
    + rewrite Hd. simpl. rewrite <- (rev_involutive s), Hs, rev_repeat.
      reflexivity.
    + left. rewrite Hd. reflexivity.
Qed.

Lemma rstrip_repeat (s : pystr) (c : N) (k : nat) :
  rstrip (s ++ repeat c k) c = rstrip s c.
Proof.
  unfold rstrip. rewrite rev_app_distr, rev_repeat, drop_leading_repeat.
  reflexivity.
Qed.

(** X1: the one request of a configured call goes to the base URL with
    every trailing slash taken off, not just one, followed by
    [/api/pow/token]: the base URL is [base] and a run of slashes, [base]
    is empty or does not end in a slash, and the URL is
    [base ++ "/api/pow/token"]. *)
Theorem endpoint_strips_every_trailing_slash
    (transport : http_call -> exn + response) (cfg : config) :
  configured cfg = true ->
  exists base k c,
    pow_service_server_url cfg = Some (base ++ repeat 47%N k) /\
    (base = [] \/ last base 47%N <> 47%N) /\
    requests (trace (get_sentinel_token transport cfg)) = [c] /\
    url c = base ++ py "/api/pow/token".
Proof.
  intros Hc.
  assert (Hu : exists u, pow_service_server_url cfg = Some u).
  { unfold configured in Hc. apply andb_true_iff in Hc as [Hu _].
    apply given_true in Hu as (x & u & Hu). eauto. }
  destruct Hu as [u Hu].
  destruct (rstrip_split u 47) as (k & Hsplit & Hend).
  exists (rstrip u 47), k, (request_of cfg).
  split; [rewrite Hu; f_equal; exact Hsplit|].
  split; [exact Hend|].
  split; [exact (configured_requests transport cfg Hc)|].
  unfold request_of, api_url_of. cbn [url]. rewrite Hu. reflexivity.
Qed.

Lemma endpoint_witness :
  exists base k c,
    pow_service_server_url
      {| pow_service_server_url := Some (py "https://pow.example///");
         pow_service_api_key := Some (py "k-1");
         pow_service_proxy_enabled := false;
         pow_service_proxy_url := None |} = Some (base ++ repeat 47%N k) /\
    (base = [] \/ last base 47%N <> 47%N) /\
    requests (trace (get_sentinel_token (answers 204 [])
      {| pow_service_server_url := Some (py "https://pow.example///");
         pow_service_api_key := Some (py "k-1");
         pow_service_proxy_enabled := false;
         pow_service_proxy_url := None |})) = [c] /\
    url c = base ++ py "/api/pow/token".
Proof.
  apply (endpoint_strips_every_trailing_slash (answers 204 [])
           {| pow_service_server_url := Some (py "https://pow.example///");
              pow_service_api_key := Some (py "k-1");
              pow_service_proxy_enabled := false;
              pow_service_proxy_url := None |}).
  reflexivity.
Defined.

(** X2: slashes added at the end of a non-empty base URL change nothing:
    with the same transport the two calls do the same, event for event,
    and return the same. *)
Theorem trailing_slashes_change_nothing
    (transport : http_call -> exn + response) (cfg1 cfg2 : config)
    (u : pystr) (k : nat) :
  u <> [] ->
  pow_service_server_url cfg1 = Some u ->
  pow_service_server_url cfg2 = Some (u ++ repeat 47%N k) ->
  pow_service_api_key cfg1 = pow_service_api_key cfg2 ->
  pow_service_proxy_enabled cfg1 = pow_service_proxy_enabled cfg2 ->
  pow_service_proxy_url cfg1 = pow_service_proxy_url cfg2 ->
  get_sentinel_token transport cfg1 = get_sentinel_token transport cfg2.
Proof.
  intros Hne H1 H2 Hk He Hp. unfold get_sentinel_token.
  rewrite H1, H2, Hk, He, Hp. cbn [str_of].
  rewrite rstrip_repeat.
  destruct u as [|x u]; [congruence|]. reflexivity.
Qed.

Lemma trailing_slashes_witness :
  get_sentinel_token (answers 200 (dq "{'success': true, 'token': 'abc123'}"))
    {| pow_service_server_url := Some (py "https://pow.example");
       pow_service_api_key := Some (py "k-1");
       pow_service_proxy_enabled := false;
       pow_service_proxy_url := None |}
  = get_sentinel_token (answers 200 (dq "{'success': true, 'token': 'abc123'}"))
      {| pow_service_server_url := Some (py "https://pow.example//");
         pow_service_api_key := Some (py "k-1");
         pow_service_proxy_enabled := false;
         pow_service_proxy_url := None |}.
Proof.
  apply (trailing_slashes_change_nothing
           (answers 200 (dq "{'success': true, 'token': 'abc123'}"))
           {| pow_service_server_url := Some (py "https://pow.example");
              pow_service_api_key := Some (py "k-1");
              pow_service_proxy_enabled := false;
              pow_service_proxy_url := None |}
           {| pow_service_server_url := Some (py "https://pow.example//");
              pow_service_api_key := Some (py "k-1");
              pow_service_proxy_enabled := false;
              pow_service_proxy_url := None |}
           (py "https://pow.example") 2).
  - discriminate.
  - reflexivity.
  - reflexivity.
  - reflexivity.
  - reflexivity.
  - reflexivity.
Defined.

(** *** What reaches the request and what reaches the log *)

(** X3: the API key and the proxy settings reach the request and nothing
    else.  Two configurations with the same base URL, each with an API
    key, whose requests are answered alike, write the same log records
    and return the same, whatever their keys and proxies are. *)
Theorem api_key_and_proxy_stay_out_of_the_log
    (transport1 transport2 : http_call -> exn + response)
    (cfg1 cfg2 : config) :
  pow_service_server_url cfg1 = pow_service_server_url cfg2 ->
  given (pow_service_api_key cfg1) = true ->
  given (pow_service_api_key cfg2) = true ->
  transport1 (request_of cfg1) = transport2 (request_of cfg2) ->
  logs (trace (get_sentinel_token transport1 cfg1))
    = logs (trace (get_sentinel_token transport2 cfg2)) /\
  outcome (get_sentinel_token transport1 cfg1)
    = outcome (get_sentinel_token transport2 cfg2).
Proof.
  intros Hu Hk1 Hk2 Ht.
  destruct (given (pow_service_server_url cfg1)) eqn:Hg.
  - assert (Hc1 : configured cfg1 = true)
      by (unfold configured; rewrite Hg, Hk1; reflexivity).
    assert (Hc2 : configured cfg2 = true)
      by (unfold configured; rewrite <- Hu, Hg, Hk2; reflexivity).
    assert (Hl : line_requesting cfg1 = line_requesting cfg2)
      by (unfold line_requesting, api_url_of; rewrite Hu; reflexivity).
    destruct (transport1 (request_of cfg1)) as [e|r] eqn:Ht1; symmetry in Ht.
    + rewrite (run_transport_fails transport1 cfg1 e Hc1 Ht1).
      rewrite (run_transport_fails transport2 cfg2 e Hc2 Ht).
      rewrite Hl. destruct (is_exception e); split; reflexivity.
    + rewrite (run_response transport1 cfg1 r Hc1 Ht1).
      rewrite (run_response transport2 cfg2 r Hc2 Ht).
      destruct (guarded (inspect r)) as [l o]. rewrite Hl. split; reflexivity.
  - unfold get_sentinel_token. rewrite <- Hu, Hg. split; reflexivity.
Qed.

Lemma api_key_witness :
  logs (trace (get_sentinel_token
                 (answers 200 (dq "{'success': true, 'token': 'abc123'}"))
                 sample_config))
  = logs (trace (get_sentinel_token
                   (answers 200 (dq "{'success': true, 'token': 'abc123'}"))
                   {| pow_service_server_url := Some (py "https://pow.example/");
                      pow_service_api_key := Some (py "another key");
                      pow_service_proxy_enabled := false;
                      pow_service_proxy_url := None |})).
Proof.
  refine (proj1 (api_key_and_proxy_stay_out_of_the_log
            (answers 200 (dq "{'success': true, 'token': 'abc123'}"))
            (answers 200 (dq "{'success': true, 'token': 'abc123'}"))
            sample_config
            {| pow_service_server_url := Some (py "https://pow.example/");
               pow_service_api_key := Some (py "another key");
               pow_service_proxy_enabled := false;
               pow_service_proxy_url := None |} _ _ _ _)).
  - reflexivity.
  - reflexivity.
  - reflexivity.
  - reflexivity.
Defined.

(** X12: a configured call makes one request and no second one, whatever
    the answer to the first is; the request carries the API key as a
    bearer token in [Authorization], accepts JSON, has a timeout of 30,
    and goes to the URL that the first log record names. *)
Theorem one_request_with_the_key_as_bearer
    (transport : http_call -> exn + response) (cfg : config) (key : pystr) :
  configured cfg = true ->
  pow_service_api_key cfg = Some key ->
  exists c rest,
    requests (trace (get_sentinel_token transport cfg)) = [c] /\
    headers c = [(py "Authorization", py "Bearer " ++ key);
                 (py "Accept", py "application/json")] /\
    timeout c = 30%Z /\
    trace (get_sentinel_token transport cfg) =
      LogInfo [Lit (py "[POW Service] Requesting token from "); Fmt (PStr (url c))]
      :: Dispatch c :: rest.
Proof.
  intros Hc Hk. exists (request_of cfg).
  assert (Hh : headers (request_of cfg)
               = [(py "Authorization", py "Bearer " ++ key);
                  (py "Accept", py "application/json")])
    by (unfold request_of, headers_of; cbn [headers]; rewrite Hk; reflexivity).
  destruct (transport (request_of cfg)) as [e|r] eqn:Ht.
  - exists (if is_exception e then [line_exception e] else []).
    split; [exact (configured_requests transport cfg Hc)|].
    split; [exact Hh|]. split; [reflexivity|].
    rewrite (run_transport_fails transport cfg e Hc Ht).
    destruct (is_exception e); reflexivity.
  - exists (trace (guarded (inspect r))).
    split; [exact (configured_requests transport cfg Hc)|].
    split; [exact Hh|]. split; [reflexivity|].
    rewrite (run_response transport cfg r Hc Ht).
    destruct (guarded (inspect r)) as [l o]. reflexivity.
Qed.

Lemma one_request_witness :
  exists c rest,
    requests (trace (get_sentinel_token (answers 500 []) sample_config)) = [c] /\
    headers c = [(py "Authorization", py "Bearer " ++ py "k-1");
                 (py "Accept", py "application/json")] /\
    timeout c = 30%Z /\
    trace (get_sentinel_token (answers 500 []) sample_config) =
      LogInfo [Lit (py "[POW Service] Requesting token from "); Fmt (PStr (url c))]
      :: Dispatch c :: rest.
Proof.
  apply (one_request_with_the_key_as_bearer (answers 500 []) sample_config (py "k-1")).
  - reflexivity.
  - reflexivity.
Defined.

(** *** The envelope, field by field *)

(** X7: on a 200 response with an object for body, [success] is tested
    before [token]: a [success] that tests false gives the record
    "returned success=false" whatever the token is, and only a true
    [success] with a token that tests false gives "returned empty
    token"; both records carry the status 200 and the raw body. *)
Theorem success_is_tested_before_the_token
    (transport : http_call -> exn + response) (cfg : config)
    (r : response) (env : pydict) :
  configured cfg = true ->
  transport (request_of cfg) = inr r ->
  status_code r = 200%Z ->
  Json.loads (text r) = Some (PDict env) ->
  (truthy (dict_get env (py "success") PNone) = false ->
   get_sentinel_token transport cfg =
     ([line_requesting cfg; Dispatch (request_of cfg);
       LogError [Lit (py "POW service returned success=false")]
                200 [Lit (text r)] (py "POWServiceClient")],
      inr None)) /\
  (truthy (dict_get env (py "success") PNone) = true ->
   truthy (dict_get env (py "token") PNone) = false ->
   get_sentinel_token transport cfg =
     ([line_requesting cfg; Dispatch (request_of cfg);
       LogError [Lit (py "POW service returned empty token")]
                200 [Lit (text r)] (py "POWServiceClient")],
      inr None)).
Proof.
  intros Hc Ht Hs Hj.
  rewrite (run_response transport cfg r Hc Ht), (inspect_object r env Hs Hj).
  split.
  - intros Hok. rewrite Hok. unfold line_rejected. rewrite Hs. reflexivity.
  - intros Hok Htok. rewrite Hok, Htok. unfold line_empty_token. rewrite Hs.
    reflexivity.
Qed.

Lemma success_first_witness :
  get_sentinel_token (answers 200 (dq "{'success': 0, 'token': ''}")) sample_config =
    ([line_requesting sample_config; Dispatch (request_of sample_config);
      LogError [Lit (py "POW service returned success=false")]
               200 [Lit (dq "{'success': 0, 'token': ''}")] (py "POWServiceClient")],
     inr None).
Proof.
  refine (proj1 (success_is_tested_before_the_token
            (answers 200 (dq "{'success': 0, 'token': ''}")) sample_config
            {| status_code := 200; text := dq "{'success': 0, 'token': ''}" |}
            [(py "success", PInt 0); (py "token", PStr [])] _ _ _ _) _).
  - reflexivity.
  - reflexivity.
  - reflexivity.
  - vm_compute. reflexivity.
  - reflexivity.
Defined.

(** X11: the device id of the envelope has precedence.  When it tests
    true it is returned and the token's own [id] is ignored; when it is
    present but tests false (an empty string, [null], 0) it is treated
    as missing and replaced by the [id] of a token that decodes to an
    object; when the token does not decode, the envelope's value is
    returned as it is, even when it tests false. *)
Theorem envelope_device_id_has_precedence
    (transport : http_call -> exn + response) (cfg : config)
    (r : response) (env : pydict) (t : pystr) :
  configured cfg = true ->
  transport (request_of cfg) = inr r ->
  accepted r env t ->
  let d := dict_get env (py "device_id") PNone in
  let ua := dict_get env (py "user_agent") PNone in
  (forall td, Json.loads t = Some (PDict td) -> truthy d = true ->
     outcome (get_sentinel_token transport cfg) = inr (Some (PStr t, d, ua))) /\
  (forall td, Json.loads t = Some (PDict td) -> truthy d = false ->
     outcome (get_sentinel_token transport cfg)
       = inr (Some (PStr t, dict_get td (py "id") PNone, ua))) /\
  (Json.loads t = None ->
     outcome (get_sentinel_token transport cfg) = inr (Some (PStr t, d, ua))).
Proof.
  intros Hc Ht Ha d ua. subst d ua.
  rewrite (accepted_outcome transport cfg r env t Hc Ht Ha).
  split; [|split].
  - intros td Hj Hd. rewrite Hj. unfold backfilled. rewrite Hd.
    rewrite andb_false_r. reflexivity.
  - intros td Hj Hd. rewrite Hj. unfold backfilled. rewrite Hd.
    rewrite andb_false_r. reflexivity.
  - intros Hj. rewrite Hj. unfold backfilled.
    destruct (truthy (dict_get env (py "device_id") PNone)); reflexivity.
Qed.

Lemma device_id_precedence_witness :
  outcome (get_sentinel_token
             (answers 200 (dq "{'success': true, 'token': '{\'id\':\'dev-42\'}', 'device_id': 'd1'}"))
             sample_config)
  = inr (Some (PStr (dq "{'id':'dev-42'}"), PStr (py "d1"), PNone)).
Proof.
  refine (proj1 (envelope_device_id_has_precedence
            (answers 200 (dq "{'success': true, 'token': '{\'id\':\'dev-42\'}', 'device_id': 'd1'}"))
            sample_config
            {| status_code := 200;
               text := dq "{'success': true, 'token': '{\'id\':\'dev-42\'}', 'device_id': 'd1'}" |}
            [(py "success", PBool true); (py "token", PStr (dq "{'id':'dev-42'}"));
             (py "device_id", PStr (py "d1"))]
            (dq "{'id':'dev-42'}") _ _ _)
          [(py "id", PStr (py "dev-42"))] _ _).
  - reflexivity.
  - reflexivity.
  - repeat split; try (vm_compute; reflexivity). discriminate.
  - vm_compute. reflexivity.
  - reflexivity.
Defined.

(** *** Tokens that are not strings *)

(** The first inner [try] on a token that is no string: [json.loads]
    raises at once, nothing is assigned. *)
Lemma backfill_not_str (token device_id : pyval) :
  type_of token <> TStr -> backfill token device_id = (PNone, device_id).
Proof.
  intros Ht. unfold backfill.
  destruct (truthy device_id); cbn [negb]; [reflexivity|].
  destruct token; cbn in *; try reflexivity. congruence.
Qed.

(** X6: the envelope may carry a token that is no string.  A non-empty
    array or object has a length, does not go through [json.loads], and
    is returned as it is after the not-JSON line, the device id of the
    envelope untouched; a number or [true] has no length, and the call
    ends with the record of the [TypeError] and [None]. *)
Theorem token_that_is_no_string
    (transport : http_call -> exn + response) (cfg : config)
    (r : response) (env : pydict) (tok : pyval) :
  configured cfg = true ->
  transport (request_of cfg) = inr r ->
  status_code r = 200%Z ->
  Json.loads (text r) = Some (PDict env) ->
  truthy (dict_get env (py "success") PNone) = true ->
  dict_get env (py "token") PNone = tok ->
  truthy tok = true ->
  let d := dict_get env (py "device_id") PNone in
  let ua := dict_get env (py "user_agent") PNone in
  let cached := dict_get env (py "cached") (PBool false) in
  let sized n :=
    get_sentinel_token transport cfg =
      ([line_requesting cfg; Dispatch (request_of cfg);
        LogInfo separator; line_obtained cached; line_length n;
        line_device d; line_agent ua; line_not_json; LogInfo separator],
       inr (Some (tok, d, ua))) in
  let unsized :=
    get_sentinel_token transport cfg =
      ([line_requesting cfg; Dispatch (request_of cfg);
        LogInfo separator; line_obtained cached;
        line_exception (LenTypeError (type_of tok))],
       inr None) in
  match tok with
  | PStr _ => True
  | PList l => sized (Z.of_nat (List.length l))
  | PDict m => sized (Z.of_nat (List.length m))
  | _ => unsized
  end.
Proof.
  intros Hc Ht Hs Hj Hok Htok Htrue d ua cached sized unsized.
  subst sized unsized d ua cached. cbv beta.
  rewrite (run_response transport cfg r Hc Ht), (inspect_object r env Hs Hj).
  rewrite Hok, Htok, Htrue. cbn [negb].
  destruct tok; try exact I; unfold report;
    rewrite backfill_not_str by (cbn; congruence); reflexivity.
Qed.

Lemma token_no_string_witness :
  get_sentinel_token (answers 200 (dq "{'success': true, 'token': [1, 2]}"))
    sample_config =
    ([line_requesting sample_config; Dispatch (request_of sample_config);
      LogInfo separator; line_obtained (PBool false); line_length 2;
      line_device PNone; line_agent PNone; line_not_json; LogInfo separator],
     inr (Some (PList [PInt 1; PInt 2], PNone, PNone))).
Proof.
  apply (token_that_is_no_string
           (answers 200 (dq "{'success': true, 'token': [1, 2]}")) sample_config
           {| status_code := 200; text := dq "{'success': true, 'token': [1, 2]}" |}
           [(py "success", PBool true); (py "token", PList [PInt 1; PInt 2])]
           (PList [PInt 1; PInt 2])).
  - reflexivity.
  - reflexivity.
  - reflexivity.
  - vm_compute. reflexivity.
  - reflexivity.
  - reflexivity.
  - reflexivity.
Defined.

(** *** What the redaction leaves in the log *)

(** The trace of a call whose token decodes to an object. *)
Lemma run_object_token (transport : http_call -> exn + response) (cfg : config)
    (r : response) (env : pydict) (t : pystr) (td : pydict) :
  configured cfg = true ->
  transport (request_of cfg) = inr r ->
  accepted r env t ->
  Json.loads t = Some (PDict td) ->
  trace (get_sentinel_token transport cfg) =
    line_requesting cfg :: Dispatch (request_of cfg) ::
    opening t (backfilled (dict_get env (py "device_id") PNone) (Some (PDict td)))
      (dict_get env (py "user_agent") PNone)
      (dict_get env (py "cached") (PBool false)) ++
    match td with
    | [] => []
    | _ :: _ => line_keys td :: map item_line td
    end ++ [LogInfo separator].
Proof.
  intros Hc Ht Ha Hj.
  rewrite (run_accepted transport cfg r env t Hc Ht Ha).
  rewrite report_str, Hj. cbv zeta.
  destruct td as [|kv td].
  - rewrite dump_falsy by reflexivity. reflexivity.
  - rewrite dump_object. reflexivity.
Qed.

(** X8: the redaction stops at strings of more than 100 characters at
    the top of the payload.  Every other item is logged with its value
    in full: a string of up to 100 characters (100 included), a number,
    and also an array or an object, whatever long strings it holds. *)
Theorem other_values_are_logged_in_full
    (transport : http_call -> exn + response) (cfg : config)
    (r : response) (env : pydict) (t : pystr) (td : pydict)
    (k : pystr) (v : pyval) :
  configured cfg = true ->
  transport (request_of cfg) = inr r ->
  accepted r env t ->
  Json.loads t = Some (PDict td) ->
  In (k, v) td ->
  (forall s, v = PStr s -> (List.length s <= 100)%nat) ->
  In (LogInfo [Lit (py "[POW Service] Token["); Fmt (PStr k); Lit (py "]: "); Fmt v])
     (trace (get_sentinel_token transport cfg)).
Proof.
  intros Hc Ht Ha Hj Hin Hv.
  rewrite (run_object_token transport cfg r env t td Hc Ht Ha Hj).
  destruct td as [|kv td]; [destruct Hin|].
  right. right. apply in_or_app. right. right. apply in_or_app. left.
  assert (Hline : item_line (k, v) = line_value k v).
  { unfold item_line. cbn [fst snd]. destruct v; try reflexivity.
    assert (Hlt : Z.ltb 100 (Z.of_nat (List.length s)) = false).
    { apply Z.ltb_ge. specialize (Hv s eq_refl). lia. }
    rewrite Hlt. reflexivity. }
  change (In (line_value k v) (map item_line (kv :: td))).
  rewrite <- Hline. apply (in_map item_line (kv :: td) (k, v) Hin).
Qed.

Lemma other_values_witness :
  In (LogInfo [Lit (py "[POW Service] Token["); Fmt (PStr (py "p"));
               Lit (py "]: "); Fmt (PList [PStr (repeat 97%N 101)])])
     (trace (get_sentinel_token
               (answers 200
                  (dq "{'success': true, 'token': '{\'p\':[\'"
                   ++ repeat 97%N 101 ++ dq "\']}'}"))
               sample_config)).
Proof.
  refine (other_values_are_logged_in_full
            (answers 200
               (dq "{'success': true, 'token': '{\'p\':[\'"
                ++ repeat 97%N 101 ++ dq "\']}'}"))
            sample_config
            {| status_code := 200;
               text := dq "{'success': true, 'token': '{\'p\':[\'"
                       ++ repeat 97%N 101 ++ dq "\']}'}" |}
            [(py "success", PBool true);
             (py "token", PStr (dq "{'p':['" ++ repeat 97%N 101 ++ dq "']}"))]
            (dq "{'p':['" ++ repeat 97%N 101 ++ dq "']}")
            [(py "p", PList [PStr (repeat 97%N 101)])]
            (py "p") (PList [PStr (repeat 97%N 101)]) _ _ _ _ _ _).
  - reflexivity.
  - reflexivity.
  - repeat split; try (vm_compute; reflexivity). discriminate.
  - vm_compute. reflexivity.
  - left. reflexivity.
  - intros s Hs. discriminate.
Defined.

(** X9: a device id taken from the token is written to the log in full
    by the Device ID line, whatever its length: the placeholder of the
    dump for a long [id] does not keep the value out of the log. *)
Theorem backfilled_device_id_is_logged_in_full
    (transport : http_call -> exn + response) (cfg : config)
    (r : response) (env : pydict) (t : pystr) (td : pydict) (id : pyval) :
  configured cfg = true ->
  transport (request_of cfg) = inr r ->
  accepted r env t ->
  truthy (dict_get env (py "device_id") PNone) = false ->
  Json.loads t = Some (PDict td) ->
  dict_lookup td (py "id") = Some id ->
  In (LogInfo [Lit (py "[POW Service] Device ID: "); Fmt id])
     (trace (get_sentinel_token transport cfg)).
Proof.
  intros Hc Ht Ha Hd Hj Hid.
  rewrite (run_object_token transport cfg r env t td Hc Ht Ha Hj).
  unfold backfilled. rewrite Hd. unfold dict_get at 1. rewrite Hid.
  right. right. cbn [opening app]. right. right. right. left. reflexivity.
Qed.

Lemma backfilled_device_id_witness :
  In (LogInfo [Lit (py "[POW Service] Device ID: "); Fmt (PStr (repeat 97%N 101))])
     (trace (get_sentinel_token
               (answers 200
                  (dq "{'success': true, 'token': '{\'id\':\'"
                   ++ repeat 97%N 101 ++ dq "\'}'}"))
               sample_config)).
Proof.
  refine (backfilled_device_id_is_logged_in_full
            (answers 200
               (dq "{'success': true, 'token': '{\'id\':\'"
                ++ repeat 97%N 101 ++ dq "\'}'}"))
            sample_config
            {| status_code := 200;
               text := dq "{'success': true, 'token': '{\'id\':\'"
                       ++ repeat 97%N 101 ++ dq "\'}'}" |}
            [(py "success", PBool true);
             (py "token", PStr (dq "{'id':'" ++ repeat 97%N 101 ++ dq "'}"))]
            (dq "{'id':'" ++ repeat 97%N 101 ++ dq "'}")
            [(py "id", PStr (repeat 97%N 101))]
            (PStr (repeat 97%N 101)) _ _ _ _ _ _).
  - reflexivity.
  - reflexivity.
  - repeat split; try (vm_compute; reflexivity). discriminate.
  - reflexivity.
  - vm_compute. reflexivity.
  - reflexivity.
Defined.

(** X10: when the token string decodes to a true JSON value that is no
    object (a number, a non-empty array or string, [true]), the call has
    already logged "Token obtained successfully", the length, the device
    id and the user agent when the dump raises; the run ends with the
    record of the [AttributeError] and the call returns [None]. *)
Theorem success_is_logged_before_the_dump_fails
    (transport : http_call -> exn + response) (cfg : config)
    (r : response) (env : pydict) (t : pystr) (v : pyval) :
  configured cfg = true ->
  transport (request_of cfg) = inr r ->
  accepted r env t ->
  Json.loads t = Some v ->
  truthy v = true ->
  type_of v <> TDict ->
  get_sentinel_token transport cfg =
    (line_requesting cfg :: Dispatch (request_of cfg) ::
     opening t (dict_get env (py "device_id") PNone)
       (dict_get env (py "user_agent") PNone)
       (dict_get env (py "cached") (PBool false)) ++
     [line_exception (AttributeError (type_of v) (py "keys"))],
     inr None).
Proof.
  intros Hc Ht Ha Hj Hv Hty.
  rewrite (run_accepted transport cfg r env t Hc Ht Ha).
  rewrite report_str, Hj. cbv zeta. rewrite (dump_other v Hv Hty).
  assert (Hb : backfilled (dict_get env (py "device_id") PNone) (Some v)
               = dict_get env (py "device_id") PNone).
  { unfold backfilled.
    destruct (truthy (dict_get env (py "device_id") PNone)); [reflexivity|].
    destruct v; try reflexivity. cbn in Hty. congruence. }
  rewrite Hb. cbn [guarded]. rewrite app_nil_r. reflexivity.
Qed.

Lemma success_then_failure_witness :
  get_sentinel_token (answers 200 (dq "{'success': true, 'token': '[1]'}"))
    sample_config =
    (line_requesting sample_config :: Dispatch (request_of sample_config) ::
     opening (py "[1]") PNone PNone (PBool false) ++
     [line_exception (AttributeError TList (py "keys"))],
     inr None).
Proof.
  apply (success_is_logged_before_the_dump_fails
           (answers 200 (dq "{'success': true, 'token': '[1]'}")) sample_config
           {| status_code := 200; text := dq "{'success': true, 'token': '[1]'}" |}
           [(py "success", PBool true); (py "token", PStr (py "[1]"))]
           (py "[1]") (PList [PInt 1])).
  - reflexivity.
  - reflexivity.
  - repeat split; try (vm_compute; reflexivity). discriminate.
  - vm_compute. reflexivity.
  - reflexivity.
  - discriminate.
Defined.

(** ** The decoder always has fuel enough *)

Module JsonFacts.
Import Json.

Lemma skip_ws_le (s : pystr) : (List.length (skip_ws s) <= List.length s)%nat.
Proof.
  induction s as [|c s IH]; simpl; [lia|].
  destruct (is_ws c); simpl; lia.
Qed.

Lemma digits_le (s : pystr) :
  forall acc n v k r, digits s acc n = (v, k, r) ->
    (List.length r <= List.length s)%nat.
Proof.
  induction s as [|c s IH]; simpl; intros acc n v k r H.
  - injection H as _ _ <-. simpl. lia.
  - destruct (is_digit c).
    + apply IH in H. lia.
    + injection H as _ _ <-. simpl. lia.
Qed.

Lemma after_prefix_length (lit s r : pystr) :
  after_prefix lit s = Some r ->
  (List.length r + List.length lit = List.length s)%nat.
Proof.
  revert s; induction lit as [|a lit IH]; simpl; intros s H.
  - injection H as <-. lia.
  - destruct s as [|b s]; [discriminate|].
    destruct (N.eqb a b); [|discriminate]. apply IH in H. simpl. lia.
Qed.

Lemma exponent_lt (s r : pystr) (e : Z) :
  exponent s = Some (e, r) -> (List.length r < List.length s)%nat.
Proof.
  unfold exponent. destruct s as [|c s]; [discriminate|].
  destruct (N.eqb c 101 || N.eqb c 69); [|discriminate].
  destruct s as [|sg s'].
  - simpl. discriminate.
  - destruct (N.eqb sg 45).
    + destruct (digits s' 0 0) as [[v k] r'] eqn:Hd. destruct k; [discriminate|].
      intros H. injection H as _ <-. apply digits_le in Hd. simpl. lia.
    + destruct (N.eqb sg 43).
      * destruct (digits s' 0 0) as [[v k] r'] eqn:Hd. destruct k; [discriminate|].
        intros H. injection H as _ <-. apply digits_le in Hd. simpl. lia.
      * destruct (digits (sg :: s') 0 0) as [[v k] r'] eqn:Hd.
        destruct k; [discriminate|].
        intros H. injection H as _ <-. apply digits_le in Hd. simpl in *. lia.
Qed.

Lemma number_tail_lt (neg : bool) (s r : pystr) (v : pyval) :
  number_tail neg s = Got v r -> (List.length r < List.length s)%nat.
Proof.
  unfold number_tail. destruct s as [|c s]; [discriminate|].
  destruct (is_digit c); [|discriminate].
  set (p1 := if N.eqb c 48 then (0%N, s)
             else let '(v0, _, r') := digits s (c - 48)%N 1 in (v0, r')).
  assert (H1 : (List.length (snd p1) <= List.length s)%nat).
  { subst p1. destruct (N.eqb c 48); [simpl; lia|].
    destruct (digits s (c - 48)%N 1) as [[v0 k] r'] eqn:Hd.
    apply digits_le in Hd. exact Hd. }
  destruct p1 as [ip s1]. cbn [snd] in H1.
  set (p2 := match s1 with
             | d :: (f :: _) as r1 =>
                 if N.eqb d 46 && is_digit f
                 then let '(v0, k, r') := digits r1 ip 0 in (Some (v0, k), r')
                 else (None, s1)
             | _ => (None, s1)
             end).
  assert (H2 : (List.length (snd p2) <= List.length s1)%nat).
  { subst p2. destruct s1 as [|d [|f s1']]; try (simpl; lia).
    destruct (N.eqb d 46 && is_digit f); [|simpl; lia].
    destruct (digits (f :: s1') ip 0) as [[v0 k] r'] eqn:Hd.
    apply digits_le in Hd. simpl in *. lia. }
  destruct p2 as [frac s2]. cbn [snd] in H2.
  set (p3 := match exponent s2 with
             | Some (e, r') => (Some e, r')
             | None => (None, s2)
             end).
  assert (H3 : (List.length (snd p3) <= List.length s2)%nat).
  { subst p3. destruct (exponent s2) as [[e r']|] eqn:He; [|simpl; lia].
    apply exponent_lt in He. simpl. lia. }
  destruct p3 as [ex s3]. cbn [snd] in H3.
  destruct frac as [[m k]|], ex as [e|]; intros H; injection H as _ <-;
    simpl; lia.
Qed.

Lemma scan_atom_lt (s r : pystr) (v : pyval) :
  scan_atom s = Got v r -> (List.length r < List.length s)%nat.
Proof.
  unfold scan_atom.
  repeat match goal with
  | |- context [after_prefix ?lit s] =>
      let H := fresh "Hp" in
      destruct (after_prefix lit s) eqn:H;
      [apply after_prefix_length in H; intros Hg; injection Hg as _ <-;
       vm_compute (List.length lit) in H; lia|]
  end.
  destruct s as [|c s]; [discriminate|].
  destruct (N.eqb c 45); intros H; apply number_tail_lt in H; simpl in *; lia.
Qed.

Lemma scanstring_lt :
  forall n s acc str r,
    (List.length s <= n)%nat ->
    scanstring s acc = Some (str, r) -> (List.length r < List.length s)%nat.
Proof.
  induction n as [|n IH]; intros s acc str r Hn H.
  - destruct s; [discriminate|simpl in Hn; lia].
  - destruct s as [|c s]; [discriminate|]. simpl in Hn.
    cbn [scanstring] in H.
    destruct (N.eqb c 34); [injection H as _ <-; simpl; lia|].
    destruct (N.eqb c 92).
    + destruct s as [|e r1]; [discriminate|].
      destruct (N.eqb e 117).
      * destruct r1 as [|h1 [|h2 [|h3 [|h4 [|x r2]]]]]; try discriminate.
        destruct (hex4 h1 h2 h3 h4) as [u|]; [|discriminate].
        assert (Hr2 : forall a, scanstring (x :: r2) a = Some (str, r) ->
                  (List.length r < List.length (x :: r2))%nat)
          by (intros a Ha; eapply IH; [|exact Ha]; simpl in *; lia).
        destruct (is_high_surrogate u).
        -- destruct r2 as [|v [|g1 [|g2 [|g3 [|g4 [|y r3]]]]]];
             try (apply Hr2 in H; simpl in *; lia).
           destruct (N.eqb x 92 && N.eqb v 117);
             [|apply Hr2 in H; simpl in *; lia].
           destruct (hex4 g1 g2 g3 g4) as [u2|]; [|discriminate].
           destruct (is_low_surrogate u2); [|apply Hr2 in H; simpl in *; lia].
           apply IH in H; simpl in *; lia.
        -- apply Hr2 in H. simpl in *. lia.
      * destruct (simple_escape e); [|discriminate].
        apply IH in H; simpl in *; lia.
    + destruct (N.leb c 31); [discriminate|].
      apply IH in H; simpl in *; lia.
Qed.

Lemma scanstring_shorter (s acc str r : pystr) :
  scanstring s acc = Some (str, r) -> (List.length r < List.length s)%nat.
Proof. apply (scanstring_lt (List.length s)). lia. Qed.

(** Every scanner that returns has consumed at least one character. *)
Lemma scanners_consume (fuel : nat) :
  (forall s v r, scan_once fuel s = Got v r ->
                 (List.length r < List.length s)%nat) /\
  (forall acc s v r, members fuel acc s = Got v r ->
                     (List.length r < List.length s)%nat) /\
  (forall acc s v r, items fuel acc s = Got v r ->
                     (List.length r < List.length s)%nat).
Proof.
  induction fuel as [|fuel (IHs & IHm & IHi)];
    [repeat split; intros; discriminate|].
  split; [|split].
  - intros s v r H. cbn [scan_once] in H.
    destruct s as [|c s]; [discriminate|].
    destruct (N.eqb c 34).
    { destruct (scanstring s []) as [[str r']|] eqn:Hs; [|discriminate].
      injection H as _ <-. apply scanstring_shorter in Hs. simpl. lia. }
    destruct (N.eqb c 123).
    { pose proof (skip_ws_le s) as Hw.
      destruct (skip_ws s) as [|c1 r1]; [discriminate|].
      destruct (N.eqb c1 125).
      - injection H as _ <-. simpl in *. lia.
      - apply IHm in H. simpl in *. lia. }
    destruct (N.eqb c 91).
    { pose proof (skip_ws_le s) as Hw.
      destruct (skip_ws s) as [|c1 r1]; [discriminate|].
      destruct (N.eqb c1 93).
      - injection H as _ <-. simpl in *. lia.
      - apply IHi in H. simpl in *. lia. }
    apply scan_atom_lt in H. exact H.
  - intros acc s v r H. cbn [members] in H.
    destruct s as [|c s]; [discriminate|].
    destruct (N.eqb c 34); [|discriminate].
    destruct (scanstring s []) as [[key r1]|] eqn:Hs; [|discriminate].
    apply scanstring_shorter in Hs.
    pose proof (skip_ws_le r1) as Hw1.
    destruct (skip_ws r1) as [|c2 r2]; [discriminate|].
    destruct (N.eqb c2 58); [|discriminate].
    pose proof (skip_ws_le r2) as Hw2.
    destruct (scan_once fuel (skip_ws r2)) as [v1 r3| |] eqn:Hv; try discriminate.
    apply IHs in Hv.
    pose proof (skip_ws_le r3) as Hw3.
    destruct (skip_ws r3) as [|c4 r4]; [discriminate|].
    destruct (N.eqb c4 125).
    + injection H as _ <-. simpl in *. lia.
    + destruct (N.eqb c4 44); [|discriminate].
      apply IHm in H. pose proof (skip_ws_le r4). simpl in *. lia.
  - intros acc s v r H. cbn [items] in H.
    destruct (scan_once fuel s) as [v1 r1| |] eqn:Hv; try discriminate.
    apply IHs in Hv.
    pose proof (skip_ws_le r1) as Hw1.
    destruct (skip_ws r1) as [|c r2]; [discriminate|].
    destruct (N.eqb c 93).
    + injection H as _ <-. simpl in *. lia.
    + destruct (N.eqb c 44); [|discriminate].
      apply IHi in H. pose proof (skip_ws_le r2). simpl in *. lia.
Qed.

(** With more than twice the length of the text as fuel, no scanner
    runs out of it. *)
Lemma scanners_have_fuel (fuel : nat) :
  (forall s, (2 * List.length s < fuel)%nat -> scan_once fuel s <> Starved) /\
  (forall acc s, (2 * List.length s + 1 < fuel)%nat ->
                 members fuel acc s <> Starved) /\
  (forall acc s, (2 * List.length s + 1 < fuel)%nat ->
                 items fuel acc s <> Starved).
Proof.
  induction fuel as [|fuel (IHs & IHm & IHi)];
    [repeat split; intros; lia|].
  destruct (scanners_consume fuel) as (Cs & Cm & Ci).
  split; [|split].
  - intros s Hf. cbn [scan_once].
    destruct s as [|c s]; [discriminate|].
    destruct (N.eqb c 34).
    { destruct (scanstring s []) as [[str r']|]; discriminate. }
    destruct (N.eqb c 123).
    { pose proof (skip_ws_le s) as Hw.
      destruct (skip_ws s) as [|c1 r1]; [discriminate|].
      destruct (N.eqb c1 125); [discriminate|].
      apply IHm. simpl in *. lia. }
    destruct (N.eqb c 91).
    { pose proof (skip_ws_le s) as Hw.
      destruct (skip_ws s) as [|c1 r1]; [discriminate|].
      destruct (N.eqb c1 93); [discriminate|].
      apply IHi. simpl in *. lia. }
    unfold scan_atom.
    repeat match goal with
    | |- context [after_prefix ?lit (c :: s)] =>
        destruct (after_prefix lit (c :: s)); [discriminate|]
    end.
    destruct (N.eqb c 45); unfold number_tail.
    + destruct s as [|d s']; [discriminate|].
      destruct (is_digit d); [|discriminate].
      repeat match goal with
      | |- context [let '(_, _) := ?p in _] => destruct p
      | |- context [match ?p with Some _ => _ | None => _ end] => destruct p
      end; discriminate.
    + destruct (is_digit c); [|discriminate].
      repeat match goal with
      | |- context [let '(_, _) := ?p in _] => destruct p
      | |- context [match ?p with Some _ => _ | None => _ end] => destruct p
      end; discriminate.
  - intros acc s Hf. cbn [members].
    destruct s as [|c s]; [discriminate|].
    destruct (N.eqb c 34); [|discriminate].
    destruct (scanstring s []) as [[key r1]|] eqn:Hs; [|discriminate].
    apply scanstring_shorter in Hs.
    pose proof (skip_ws_le r1) as Hw1.
    destruct (skip_ws r1) as [|c2 r2]; [discriminate|].
    destruct (N.eqb c2 58); [|discriminate].
    pose proof (skip_ws_le r2) as Hw2.
    destruct (scan_once fuel (skip_ws r2)) as [v1 r3| |] eqn:Hv;
      [|discriminate|exfalso; revert Hv; apply IHs; simpl in *; lia].
    apply Cs in Hv.
    pose proof (skip_ws_le r3) as Hw3.
    destruct (skip_ws r3) as [|c4 r4]; [discriminate|].
    destruct (N.eqb c4 125); [discriminate|].
    destruct (N.eqb c4 44); [|discriminate].
    apply IHm. pose proof (skip_ws_le r4). simpl in *. lia.
  - intros acc s Hf. cbn [items].
    destruct (scan_once fuel s) as [v1 r1| |] eqn:Hv;
      [|discriminate|exfalso; revert Hv; apply IHs; simpl in *; lia].
    apply Cs in Hv.
    pose proof (skip_ws_le r1) as Hw1.
    destruct (skip_ws r1) as [|c r2]; [discriminate|].
    destruct (N.eqb c 93); [discriminate|].
    destruct (N.eqb c 44); [|discriminate].
    apply IHi. pose proof (skip_ws_le r2). simpl in *. lia.
Qed.

(** [loads] returns [None] only where the decoder rejects the text. *)
Theorem loads_never_starved (s : pystr) :
  loads_fuel (S (2 * List.length s)) s <> Starved.
Proof.
  unfold loads_fuel.
  destruct (scan_once (S (2 * List.length s)) (skip_ws s)) as [v r| |] eqn:H.
  - destruct (skip_ws r); discriminate.
  - discriminate.
  - exfalso. revert H.
    apply (proj1 (scanners_have_fuel (S (2 * List.length s)))).
    pose proof (skip_ws_le s). lia.
Qed.

End JsonFacts.
